(** * CYW43907 TCP server: a shallow embedding of [tcp_server.c]

    The program is a FreeRTOS application: one worker task
    ([tcp_server_task]), one GPIO interrupt service routine
    ([isr_button_press]) and three socket callbacks
    ([tcp_connection_handler], [tcp_receive_msg_handler],
    [tcp_disconnection_handler]).  They share a handful of global
    variables.  Each function is embedded as a pure function from the
    globals and the replies of the calls it makes into the libraries
    (secure sockets, HAL, FreeRTOS) to the new globals, the list of library
    calls it issued, and its return value. *)

From Stdlib Require Import ZArith String Ascii Lia.
From stdpp Require Import base list strings.

Local Open Scope Z_scope.

(** ** Types and constants that come from headers outside the sources *)

Module Platform.

(** Modelled from the spec: [cy_rslt_t] is declared in the HAL's result
    header, which is not among the sources.  The program only ever compares
    a result with [CY_RSLT_SUCCESS] and with
    [CY_RSLT_MODULE_SECURE_SOCKETS_CLOSED] (the spec's "peer closed" code),
    so a result is the success code, the peer-closed code, or any other
    error code, told apart by its 32-bit value. *)
Inductive cy_rslt_t : Type :=
  | CY_RSLT_SUCCESS
  | CY_RSLT_MODULE_SECURE_SOCKETS_CLOSED
  | CY_RSLT_ERROR (code : Z).

#[global] Instance cy_rslt_eq_dec : EqDecision cy_rslt_t.
Proof. solve_decision. Defined.

(** A socket handle ([cy_socket_t] is an opaque pointer). *)
Definition cy_socket_t : Type := Z.

(** [cy_socket_sockaddr_t]: port, IP version and IPv4 address. *)
Record cy_socket_sockaddr_t : Type := SockAddr {
  port : Z;
  ip_version : Z;
  ip_v4 : Z
}.

(** Modelled from the spec: the board support package's
    [CYBSP_LED_STATE_ON] / [CYBSP_LED_STATE_OFF] are not among the sources.
    The spec reads the flag as [ledIsOn], so ON is [true] and OFF is
    [false]. *)
Definition CYBSP_LED_STATE_ON : bool := true.

(** Modelled from the spec: see [CYBSP_LED_STATE_ON]. *)
Definition CYBSP_LED_STATE_OFF : bool := false.

End Platform.
Export Platform.

(** ** The FreeRTOS task notification used as the notification channel *)

Module Notify.

(** Modelled from the spec: the FreeRTOS kernel ([xTaskNotifyFromISR],
    [xTaskNotifyWait]) is not among the sources.  The spec describes the
    channel as a single slot holding one value, with two posting policies:
    "keep newest" (overwrite) and "reject new" (set-without-overwrite: a
    pending unread value is preserved and a new post is dropped); the
    consumer blocks until a value is posted. *)
Inductive eNotifyAction : Type :=
  | eSetValueWithOverwrite
  | eSetValueWithoutOverwrite.

(** Modelled from the spec: the receiving task's notification slot, its
    32-bit value and whether a notification is pending (posted and not yet
    consumed). *)
Record slot : Type := Slot {
  ulNotifiedValue : Z;
  pending : bool
}.

(** Modelled from the spec: whether a post was taken or dropped. *)
Inductive BaseType_t : Type := pdPASS | pdFAIL.

(** Modelled from the spec: a post never waits; it either stores the value
    and marks the slot pending, or (without-overwrite on a pending slot)
    leaves the slot as it is and reports failure. *)
Definition xTaskNotifyFromISR (ulValue : Z) (eAction : eNotifyAction)
    (s : slot) : slot * BaseType_t :=
  match eAction with
  | eSetValueWithOverwrite => (Slot ulValue true, pdPASS)
  | eSetValueWithoutOverwrite =>
      if pending s then (s, pdFAIL) else (Slot ulValue true, pdPASS)
  end.

(** Modelled from the spec: [xTaskNotifyWait(0, 0, &v, portMAX_DELAY)].
    [None] means the caller stays blocked; otherwise the pending value is
    handed over and the slot is no longer pending. *)
Definition xTaskNotifyWait (s : slot) : option (Z * slot) :=
  if pending s then Some (ulNotifiedValue s, Slot (ulNotifiedValue s) false)
  else None.

End Notify.

(** ** C strings *)

Module CString.

Definition NUL : ascii := Ascii.zero.

(** A string literal as the array the compiler emits: its characters and
    the terminating NUL. *)
Definition literal (s : string) : list ascii :=
  list_ascii_of_string s ++ [NUL].

(** The text a [char] array holds when read as a C string: the bytes before
    the first NUL. *)
Fixpoint c_str (buf : list ascii) : list ascii :=
  match buf with
  | [] => []
  | c :: rest => if decide (c = NUL) then [] else c :: c_str rest
  end.

(** [strcmp]: compares byte by byte (as [unsigned char]) and stops at the
    first difference or at a NUL common to both.  [None] when it would read
    past the end of one of the arrays. *)
Fixpoint strcmp (s1 s2 : list ascii) : option Z :=
  match s1, s2 with
  | c1 :: r1, c2 :: r2 =>
      if decide (c1 = c2)
      then (if decide (c1 = NUL) then Some 0 else strcmp r1 r2)
      else Some (Z.of_nat (nat_of_ascii c1) - Z.of_nat (nat_of_ascii c2))
  | _, _ => None
  end.

End CString.

(** ** The TCP server *)

Module TcpServer.
Import Notify CString.

(** *** Macros of [tcp_server.c] *)

Definition TCP_SERVER_PORT : Z := 50007.
Definition TCP_SERVER_MAX_PENDING_CONNECTIONS : Z := 3.
Definition TCP_SERVER_RECV_TIMEOUT_MS : Z := 500.
Definition MAX_TCP_RECV_BUFFER_SIZE : nat := 20.

Definition TCP_KEEP_ALIVE_IDLE_TIME_MS : Z := 10000.
Definition TCP_KEEP_ALIVE_INTERVAL_MS : Z := 1000.
Definition TCP_KEEP_ALIVE_RETRY_COUNT : Z := 2.

Definition TCP_LED_CMD_LEN : nat := 1.

(** ['1'] and ['0'] as the [uint32_t] the ISR stores them in. *)
Definition LED_ON_CMD : Z := 49.
Definition LED_OFF_CMD : Z := 48.

Definition DEBOUNCE_DELAY_MS : Z := 50.

(** *** Global variables *)

Record globals : Type := Globals {
  tcp_server_addr : cy_socket_sockaddr_t;
  peer_addr : cy_socket_sockaddr_t;
  server_handle : cy_socket_t;
  client_handle : cy_socket_t;
  peer_addr_len : Z;
  led_state : bool;
  client_connected : bool
}.

Definition set_led_state (b : bool) (g : globals) : globals :=
  Globals (tcp_server_addr g) (peer_addr g) (server_handle g)
          (client_handle g) (peer_addr_len g) b (client_connected g).

Definition set_client_connected (b : bool) (g : globals) : globals :=
  Globals (tcp_server_addr g) (peer_addr g) (server_handle g)
          (client_handle g) (peer_addr_len g) (led_state g) b.

(** The three out-parameters of [cy_socket_accept], all globals. *)
Definition set_peer (a : cy_socket_sockaddr_t) (len : Z) (h : cy_socket_t)
    (g : globals) : globals :=
  Globals (tcp_server_addr g) a (server_handle g) h len
          (led_state g) (client_connected g).

(** *** Library calls, recorded in the order the code issues them *)

Inductive socklevel : Type :=
  | CY_SOCKET_SOL_SOCKET
  | CY_SOCKET_SOL_TCP.

Inductive sockopt : Type :=
  | CY_SOCKET_SO_TCP_KEEPALIVE_INTERVAL
  | CY_SOCKET_SO_TCP_KEEPALIVE_COUNT
  | CY_SOCKET_SO_TCP_KEEPALIVE_IDLE_TIME
  | CY_SOCKET_SO_TCP_KEEPALIVE_ENABLE.

Inductive event : Type :=
  (** [cyhal_gpio_enable_event(CYBSP_SW1, CYHAL_GPIO_IRQ_FALL, prio, enable)] *)
  | GpioEnableEvent (enable : bool)
  (** [vTaskDelay(ms / portTICK_PERIOD_MS)], recorded in milliseconds *)
  | TaskDelay (ms : Z)
  | SocketAccept (listener : cy_socket_t)
  | SocketSetSockOpt (h : cy_socket_t) (level : socklevel) (opt : sockopt)
                     (value : Z)
  | SocketSend (h : cy_socket_t) (data : list Z)
  | SocketRecv (h : cy_socket_t) (size : nat)
  | SocketDisconnect (h : cy_socket_t) (timeout : Z)
  | SocketDelete (h : cy_socket_t)
  (** [printf]: the message, without its line breaks and arguments *)
  | Printf (msg : string).

#[global] Instance socklevel_eq_dec : EqDecision socklevel.
Proof. solve_decision. Defined.

#[global] Instance sockopt_eq_dec : EqDecision sockopt.
Proof. solve_decision. Defined.

#[global] Instance event_eq_dec : EqDecision event.
Proof. solve_decision. Defined.

Definition is_send (e : event) : bool :=
  match e with SocketSend _ _ => true | _ => false end.

Definition is_printf (e : event) : bool :=
  match e with Printf _ => true | _ => false end.

(** Whether the button's falling-edge interrupt is enabled once the calls
    of [tr] have been made, [before] being its state at the start. *)
Definition irq_enabled_after (tr : list event) (before : bool) : bool :=
  fold_left (fun en e => match e with GpioEnableEvent b => b | _ => en end)
            tr before.

(** *** [tcp_connection_handler] *)

(** What [cy_socket_accept] returned and what it left in its three
    out-parameters [&peer_addr], [&peer_addr_len], [&client_handle]. *)
Record accept_reply : Type := AcceptReply {
  acc_result : cy_rslt_t;
  acc_peer_addr : cy_socket_sockaddr_t;
  acc_peer_addr_len : Z;
  acc_client_handle : cy_socket_t
}.

(** The results of the four [cy_socket_setsockopt] calls, should they be
    reached. *)
Record keepalive_replies : Type := KeepAlive {
  ka_interval : cy_rslt_t;
  ka_count : cy_rslt_t;
  ka_idle_time : cy_rslt_t;
  ka_enable : cy_rslt_t
}.

Definition msg_listening : list event :=
  [ Printf "===============================================================";
    Printf "Listening for incoming TCP client connection on Port: %d" ].

Definition tcp_connection_handler (g : globals) (socket_handle : cy_socket_t)
    (acc : accept_reply) (ka : keepalive_replies)
    : globals * list event * cy_rslt_t :=
  let keep_alive := 1 in
  let keep_alive_interval := TCP_KEEP_ALIVE_INTERVAL_MS in
  let keep_alive_count := TCP_KEEP_ALIVE_RETRY_COUNT in
  let keep_alive_idle_time := TCP_KEEP_ALIVE_IDLE_TIME_MS in
  (* Accept new incoming connection from a TCP client. *)
  let g := set_peer (acc_peer_addr acc) (acc_peer_addr_len acc)
                    (acc_client_handle acc) g in
  let tr := [SocketAccept socket_handle] in
  if decide (acc_result acc = CY_RSLT_SUCCESS) then
    let tr := tr ++
      [ Printf "Incoming TCP connection accepted";
        Printf "IP Address : %s";
        Printf "Press the user button to send LED ON/OFF command to the TCP client";
        (* Set the TCP keep alive interval. *)
        SocketSetSockOpt (client_handle g) CY_SOCKET_SOL_TCP
                         CY_SOCKET_SO_TCP_KEEPALIVE_INTERVAL
                         keep_alive_interval ] in
    if decide (ka_interval ka <> CY_RSLT_SUCCESS) then
      (g, tr ++ [Printf "Set socket option: CY_SOCKET_SO_TCP_KEEPALIVE_INTERVAL failed"],
       ka_interval ka)
    else
    (* Set the retry count for TCP keep alive packet. *)
    let tr := tr ++
      [ SocketSetSockOpt (client_handle g) CY_SOCKET_SOL_TCP
                         CY_SOCKET_SO_TCP_KEEPALIVE_COUNT
                         keep_alive_count ] in
    if decide (ka_count ka <> CY_RSLT_SUCCESS) then
      (g, tr ++ [Printf "Set socket option: CY_SOCKET_SO_TCP_KEEPALIVE_COUNT failed"],
       ka_count ka)
    else
    (* Set the network idle time before sending the TCP keep alive packet. *)
    let tr := tr ++
      [ SocketSetSockOpt (client_handle g) CY_SOCKET_SOL_TCP
                         CY_SOCKET_SO_TCP_KEEPALIVE_IDLE_TIME
                         keep_alive_idle_time ] in
    if decide (ka_idle_time ka <> CY_RSLT_SUCCESS) then
      (g, tr ++ [Printf "Set socket option: CY_SOCKET_SO_TCP_KEEPALIVE_IDLE_TIME failed"],
       ka_idle_time ka)
    else
    (* Enable TCP keep alive. *)
    let tr := tr ++
      [ SocketSetSockOpt (client_handle g) CY_SOCKET_SOL_SOCKET
                         CY_SOCKET_SO_TCP_KEEPALIVE_ENABLE
                         keep_alive ] in
    if decide (ka_enable ka <> CY_RSLT_SUCCESS) then
      (g, tr ++ [Printf "Set socket option: CY_SOCKET_SO_TCP_KEEPALIVE_ENABLE failed"],
       ka_enable ka)
    else
    (* Set the client connection flag as true. *)
    (set_client_connected true g, tr, ka_enable ka)
  else
    (g,
     tr ++ Printf "Failed to accept incoming client connection. Error code: 0x%08x"
        :: msg_listening,
     acc_result acc).

(** *** [tcp_receive_msg_handler] *)

(** Undefined behaviour of the C program. *)
Inductive fault : Type :=
  | StoreOutOfBounds (index size : nat)
  | ReadOutOfBounds.

Inductive outcome (A : Type) : Type :=
  | Returns (a : A)
  | Undefined (f : fault).
Arguments Returns {A} a.
Arguments Undefined {A} f.

(** Storing one element of an array: [buf[i] = c]. *)
Definition store {A} (buf : list A) (i : nat) (c : A) : outcome (list A) :=
  if decide (i < length buf)%nat then Returns (<[i := c]> buf)
  else Undefined (StoreOutOfBounds i (length buf)).

(** What [cy_socket_recv] returned and the bytes it copied to the start of
    the buffer; [bytes_received] is their number. *)
Record recv_reply : Type := RecvReply {
  recv_result : cy_rslt_t;
  recv_data : list ascii
}.

(** The buffer once [data] has been copied to its start. *)
Definition recv_into (buf data : list ascii) : list ascii :=
  data ++ drop (length data) buf.

Definition msg_press_button : list event :=
  [ Printf "===============================================================";
    Printf "Press the user button to send LED ON/OFF command to the TCP client" ].

Definition tcp_receive_msg_handler (g : globals) (socket_handle : cy_socket_t)
    (r : recv_reply) : outcome (globals * list event * cy_rslt_t) :=
  let message_buffer := replicate MAX_TCP_RECV_BUFFER_SIZE NUL in
  let tr := [SocketRecv socket_handle MAX_TCP_RECV_BUFFER_SIZE] in
  let message_buffer := recv_into message_buffer (recv_data r) in
  let bytes_received := length (recv_data r) in
  let result := recv_result r in
  if decide (result = CY_RSLT_SUCCESS) then
    (* Terminate the received string with '\0'. *)
    match store message_buffer bytes_received NUL with
    | Undefined f => Undefined f
    | Returns message_buffer =>
        let tr := tr ++ [Printf "Acknowledgement from TCP Client: %s"] in
        (* Set the LED state based on the acknowledgement received. *)
        match strcmp message_buffer (literal "LED ON ACK") with
        | None => Undefined ReadOutOfBounds
        | Some cmp =>
            let g := if decide (cmp = 0)
                     then set_led_state CYBSP_LED_STATE_ON g
                     else set_led_state CYBSP_LED_STATE_OFF g in
            Returns (g, tr ++ msg_press_button, result)
        end
    end
  else
    let tr := tr ++
      [Printf "Failed to receive acknowledgement from the TCP client. Error: 0x%08x"] in
    let tr :=
      if decide (result = CY_RSLT_MODULE_SECURE_SOCKETS_CLOSED) then
        tr ++ [ (* Disconnect the socket. *)
                SocketDisconnect socket_handle 0;
                (* Delete the socket. *)
                SocketDelete socket_handle ]
      else tr in
    Returns (g, tr ++ msg_press_button, result).

(** *** [tcp_disconnection_handler] *)

(** [disconnect_result] is what [cy_socket_disconnect] returned. *)
Definition tcp_disconnection_handler (g : globals) (socket_handle : cy_socket_t)
    (disconnect_result : cy_rslt_t) : globals * list event * cy_rslt_t :=
  (* Disconnect the TCP client. *)
  let result := disconnect_result in
  let tr := [ SocketDisconnect socket_handle 0;
              (* Delete the socket. *)
              SocketDelete socket_handle ] in
  (* Set the client connection flag as false. *)
  let g := set_client_connected false g in
  let tr := tr ++
    [ Printf "TCP Client disconnected! Please reconnect the TCP Client";
      Printf "===============================================================";
      Printf "Listening for incoming TCP client connection on Port:%d" ] in
  (* Set the LED state to OFF when the TCP client disconnects. *)
  let g := set_led_state CYBSP_LED_STATE_OFF g in
  (g, tr, result).

(** *** [isr_button_press] *)

(** The command the ISR chooses. *)
Definition isr_led_state_cmd (g : globals) : Z :=
  if decide (led_state g = CYBSP_LED_STATE_ON) then LED_OFF_CMD
  else LED_ON_CMD.

(** The ISR posts the command to the worker's notification slot [s] with
    [eSetValueWithoutOverwrite]; it writes no global.  The closing
    [portYIELD_FROM_ISR] only asks the scheduler for a context switch and
    has no counterpart here. *)
Definition isr_button_press (g : globals) (s : slot) : slot * BaseType_t :=
  let led_state_cmd := isr_led_state_cmd g in
  (* Set the flag to send command to TCP client. *)
  xTaskNotifyFromISR led_state_cmd eSetValueWithoutOverwrite s.

(** *** The loop of [tcp_server_task] *)

(** The bytes of a [uint32_t] in memory (the CYW43907's ARM core is
    little-endian). *)
Definition uint32_bytes (v : Z) : list Z :=
  [ v mod 256; (v / 256) mod 256; (v / 65536) mod 256; (v / 16777216) mod 256 ].

(** One pass through the body of [while(true)], after [xTaskNotifyWait] has
    delivered [led_state_cmd].  [pin] is what [cyhal_gpio_read(CYBSP_SW1)]
    returns after the debounce delay ([false]: the button is still held
    down), [send_result] what [cy_socket_send] returns if it is called. *)
Definition tcp_server_task_iteration (g : globals) (led_state_cmd : Z)
    (pin : bool) (send_result : cy_rslt_t) : globals * list event :=
  let tr :=
    [ (* Disable the GPIO signal falling edge detection. *)
      GpioEnableEvent false;
      (* Wait till the debounce period of the user button. *)
      TaskDelay DEBOUNCE_DELAY_MS ] in
  let tr :=
    if negb pin then
      if client_connected g then
        (* Send the command to TCP client. *)
        let tr := tr ++
          [ SocketSend (client_handle g)
                       (take TCP_LED_CMD_LEN (uint32_bytes led_state_cmd)) ] in
        let result := send_result in
        if decide (result = CY_RSLT_SUCCESS) then
          if decide (led_state_cmd = LED_ON_CMD)
          then tr ++ [Printf "LED ON command sent to TCP client"]
          else tr ++ [Printf "LED OFF command sent to TCP client"]
        else
          let tr := tr ++
            [Printf "Failed to send command to client. Error code: 0x%08x"] in
          if decide (result = CY_RSLT_MODULE_SECURE_SOCKETS_CLOSED) then
            tr ++ [ (* Disconnect the socket. *)
                    SocketDisconnect (client_handle g) 0;
                    (* Delete the socket. *)
                    SocketDelete (client_handle g) ]
          else tr
      else tr
    else tr in
  (* Enable the GPIO signal falling edge detection. *)
  (g, tr ++ [GpioEnableEvent true]).

(** The worker from the top of the loop: it stays blocked ([None]) unless a
    notification is pending, and otherwise runs one iteration with the
    value it consumed. *)
Definition tcp_server_task_step (g : globals) (s : slot) (pin : bool)
    (send_result : cy_rslt_t) : option (globals * slot * list event) :=
  match xTaskNotifyWait s with
  | None => None
  | Some (led_state_cmd, s') =>
      let '(g', tr) := tcp_server_task_iteration g led_state_cmd pin send_result in
      Some (g', s', tr)
  end.

(** The state of the connection registry that [tcp_disconnection_handler]
    leaves behind. *)
Definition cleared (g : globals) : Prop :=
  client_connected g = false /\ led_state g = CYBSP_LED_STATE_OFF.

End TcpServer.

(** ** Sample states and inputs *)

Module Samples.
Import Notify CString TcpServer.

(** No client: the state after start-up, listening on port 50007. *)
Definition listening : globals :=
  Globals (SockAddr TCP_SERVER_PORT 4 3232238081) (SockAddr 0 0 0)
          1 0 0 CYBSP_LED_STATE_OFF false.

(** A client is connected on handle 2 and has acknowledged LED ON. *)
Definition connected_on : globals :=
  Globals (SockAddr TCP_SERVER_PORT 4 3232238081)
          (SockAddr 40000 4 3232238082)
          1 2 8 CYBSP_LED_STATE_ON true.

(** A client is connected on handle 2; the LED is off. *)
Definition connected_off : globals :=
  Globals (SockAddr TCP_SERVER_PORT 4 3232238081)
          (SockAddr 40000 4 3232238082)
          1 2 8 CYBSP_LED_STATE_OFF true.

(** A first client asking to connect: the accept succeeds on handle 2. *)
Definition first_peer : accept_reply :=
  AcceptReply CY_RSLT_SUCCESS (SockAddr 40000 4 3232238082) 8 2.

(** A second client asking to connect: the accept succeeds on handle 3. *)
Definition second_peer : accept_reply :=
  AcceptReply CY_RSLT_SUCCESS (SockAddr 40001 4 3232238083) 8 3.

Definition keepalive_ok : keepalive_replies :=
  KeepAlive CY_RSLT_SUCCESS CY_RSLT_SUCCESS CY_RSLT_SUCCESS CY_RSLT_SUCCESS.

(** The first keep-alive option is refused. *)
Definition keepalive_interval_refused : keepalive_replies :=
  KeepAlive (CY_RSLT_ERROR 1) CY_RSLT_SUCCESS CY_RSLT_SUCCESS CY_RSLT_SUCCESS.

Definition ack_on : list ascii := list_ascii_of_string "LED ON ACK".

(** The acknowledgement sent with its terminator and one more byte. *)
Definition ack_on_nul_x : list ascii := ack_on ++ [NUL; "x"%char].

(** Twenty bytes: a full receive buffer. *)
Definition twenty_bytes : list ascii := replicate 20 "A"%char.

End Samples.

(** ** Start-up: joining the network and creating the listening socket *)

Module Startup.
Import CString TcpServer.

(** *** [MAKE_IP_PARAMETERS] *)

(** The cast to [uint32_t], and the wrap-around of a 32-bit shift. *)
Definition uint32 (v : Z) : Z := v mod 2 ^ 32.

Definition MAKE_IP_PARAMETERS (a b c d : Z) : Z :=
  Z.lor (Z.lor (Z.lor (uint32 (Z.shiftl (uint32 d) 24))
                      (uint32 (Z.shiftl (uint32 c) 16)))
               (uint32 (Z.shiftl (uint32 b) 8)))
        (uint32 a).

(** *** Macros *)

Definition WIFI_SSID : string := "MY_WIFI_SSID".
Definition WIFI_PASSWORD : string := "MY_WIFI_PASSWORD".
Definition MAX_WIFI_CONN_RETRIES : nat := 10.
Definition WIFI_CONN_RETRY_INTERVAL_MSEC : Z := 1000.

(** Constants and array sizes declared in [cy_wcm.h] and
    [cy_secure_sockets.h], which are not among the sources; the functions
    below take them as a parameter. *)
Record headers : Type := Headers {
  CY_WCM_MAX_SSID_LEN : nat;
  CY_WCM_MAX_PASSPHRASE_LEN : nat;
  (** [sizeof] of the [SSID] and [password] members of
      [cy_wcm_ap_credentials_t] *)
  sizeof_SSID : nat;
  sizeof_password : nat;
  CY_RSLT_WCM_BAD_SSID_LEN : cy_rslt_t;
  CY_RSLT_WCM_BAD_PASSPHRASE_LEN : cy_rslt_t;
  CY_SOCKET_IP_VER_V4 : Z
}.

(** *** Library calls made during start-up *)

Inductive callback_opt : Type :=
  | CY_SOCKET_SO_CONNECT_REQUEST_CALLBACK
  | CY_SOCKET_SO_RECEIVE_CALLBACK
  | CY_SOCKET_SO_DISCONNECT_CALLBACK.

(** The functions whose address is registered as a callback. *)
Inductive callback : Type :=
  | cb_tcp_connection_handler
  | cb_tcp_receive_msg_handler
  | cb_tcp_disconnection_handler
  | cb_isr_button_press.

Inductive boot_event : Type :=
  | GpioInit
  | GpioRegisterCallback (cb : callback)
  | GpioEnableFallingEdge (enable : bool)
  | WcmInit
  (** [cy_wcm_connect_ap] with the SSID and password arrays it is given
      (the security type, a constant, is left out) *)
  | WcmConnectAp (ssid password : list ascii)
  (** [vTaskDelay(pdMS_TO_TICKS(ms))] *)
  | RetryDelay (ms : Z)
  | SocketInit
  | SocketCreate
  | SetRcvTimeo (h : cy_socket_t) (ms : Z)
  | SetCallback (h : cy_socket_t) (opt : callback_opt) (cb : callback)
  | SocketBind (h : cy_socket_t) (addr : cy_socket_sockaddr_t)
  | SocketListen (h : cy_socket_t) (backlog : Z)
  | ServerSocketDelete (h : cy_socket_t)
  | Console (msg : string).

#[global] Instance callback_opt_eq_dec : EqDecision callback_opt.
Proof. solve_decision. Defined.

#[global] Instance callback_eq_dec : EqDecision callback.
Proof. solve_decision. Defined.

#[global] Instance sockaddr_eq_dec : EqDecision cy_socket_sockaddr_t.
Proof. solve_decision. Defined.

#[global] Instance boot_event_eq_dec : EqDecision boot_event.
Proof. solve_decision. Defined.

Definition is_connect_ap (e : boot_event) : bool :=
  match e with WcmConnectAp _ _ => true | _ => false end.

Definition is_retry_delay (e : boot_event) : bool :=
  match e with RetryDelay _ => true | _ => false end.

Definition is_print (e : boot_event) : bool :=
  match e with Console _ => true | _ => false end.

Definition set_tcp_server_addr (a : cy_socket_sockaddr_t) (g : globals)
    : globals :=
  Globals a (peer_addr g) (server_handle g) (client_handle g)
          (peer_addr_len g) (led_state g) (client_connected g).

Definition set_server_handle (h : cy_socket_t) (g : globals) : globals :=
  Globals (tcp_server_addr g) (peer_addr g) h (client_handle g)
          (peer_addr_len g) (led_state g) (client_connected g).

(** *** [connect_to_wifi_ap] *)

(** [strlen] of a string literal and the cast of a length to [uint8_t]. *)
Definition strlen (s : string) : nat := length (c_str (literal s)).
Definition uint8 (n : nat) : nat := n mod 256.

(** Sequencing: undefined behaviour ends the execution. *)
Definition and_then {A B : Type} (o : outcome A) (k : A -> outcome B)
    : outcome B :=
  match o with
  | Returns a => k a
  | Undefined f => Undefined f
  end.

Notation "x <- o ; k" := (and_then o (fun x => k))
  (at level 200, o at level 100, k at level 200, right associativity,
   only parsing).

(** [memcpy(dst, src, sizeof(src))] into a member array [dst]. *)
Definition memcpy (dst src : list ascii) : outcome (list ascii) :=
  if decide (length src <= length dst)%nat
  then Returns (src ++ drop (length src) dst)
  else Undefined (StoreOutOfBounds (length dst) (length dst)).

(** What one call of [cy_wcm_connect_ap] returned and the address it left
    in [ip_address]. *)
Record connect_reply : Type := ConnectReply {
  wcm_result : cy_rslt_t;
  wcm_ip_v4 : Z
}.

(** One failed attempt: the call, the report and the wait. *)
Definition failed_attempt (ssid password : list ascii) : list boot_event :=
  [ WcmConnectAp ssid password;
    Console "Connection to Wi-Fi network failed with error code 0x%08x. Retrying in %d ms...";
    RetryDelay WIFI_CONN_RETRY_INTERVAL_MSEC ].

Section WithHeaders.
Variable hdr : headers.

(** The [for] loop: [remaining] is [MAX_WIFI_CONN_RETRIES - conn_retries],
    [replies n] the reply to the attempt made with [conn_retries = n], and
    [result] the value of the variable on entry. *)
Fixpoint join_loop (remaining conn_retries : nat) (ssid password : list ascii)
    (replies : nat -> connect_reply) (g : globals) (result : cy_rslt_t)
    : globals * list boot_event * cy_rslt_t :=
  match remaining with
  | O =>
      (* Stop retrying after maximum retry attempts. *)
      (g, [Console "Exceeded maximum Wi-Fi connection attempts"], result)
  | S remaining' =>
      let result := wcm_result (replies conn_retries) in
      if decide (result = CY_RSLT_SUCCESS) then
        (* IP address and TCP port number of the TCP server *)
        (set_tcp_server_addr
           (SockAddr TCP_SERVER_PORT (CY_SOCKET_IP_VER_V4 hdr)
                     (wcm_ip_v4 (replies conn_retries))) g,
         [ WcmConnectAp ssid password;
           Console "Successfully connected to Wi-Fi network '%s'.";
           Console "IP Address Assigned: %s" ],
         result)
      else
        let '(g', tr, res) :=
          join_loop remaining' (S conn_retries) ssid password replies g result in
        (g', failed_attempt ssid password ++ tr, res)
  end.

Definition connect_to_wifi_ap (ssid password : string)
    (replies : nat -> connect_reply) (g : globals)
    : outcome (globals * list boot_event * cy_rslt_t) :=
  (* Validate the length of SSID and password *)
  let ssid_len := uint8 (strlen ssid) in
  let pwd_len := uint8 (strlen password) in
  if decide (ssid_len = 0 \/ CY_WCM_MAX_SSID_LEN hdr < ssid_len)%nat then
    Returns (g, [Console "SSID - invalid length error"],
             CY_RSLT_WCM_BAD_SSID_LEN hdr)
  else if decide (pwd_len = 0 \/ CY_WCM_MAX_PASSPHRASE_LEN hdr < pwd_len)%nat then
    Returns (g, [Console "AP credentials passphrase length error"],
             CY_RSLT_WCM_BAD_PASSPHRASE_LEN hdr)
  else
    (* Set the Wi-Fi SSID, password and security type. *)
    ssid_field <- memcpy (replicate (sizeof_SSID hdr) NUL) (literal ssid);
    password_field <- memcpy (replicate (sizeof_password hdr) NUL)
                             (literal password);
    (* Join the Wi-Fi AP. *)
    let '(g', tr, res) :=
      join_loop MAX_WIFI_CONN_RETRIES 0 ssid_field password_field
                replies g CY_RSLT_SUCCESS in
    Returns (g', Console "Connecting to Wi-Fi Network: %s" :: tr, res).

End WithHeaders.

(** *** [create_tcp_server_socket] *)

(** The results of the six library calls, should they be reached, and the
    handle [cy_socket_create] left in [server_handle]. *)
Record create_replies : Type := CreateReplies {
  cr_create : cy_rslt_t;
  cr_server_handle : cy_socket_t;
  cr_rcvtimeo : cy_rslt_t;
  cr_connect_cb : cy_rslt_t;
  cr_receive_cb : cy_rslt_t;
  cr_disconnect_cb : cy_rslt_t;
  cr_bind : cy_rslt_t
}.

Definition create_tcp_server_socket (r : create_replies) (g : globals)
    : globals * list boot_event * cy_rslt_t :=
  (* TCP socket receive timeout period. *)
  let tcp_recv_timeout := TCP_SERVER_RECV_TIMEOUT_MS in
  (* Create a TCP socket *)
  let g := set_server_handle (cr_server_handle r) g in
  let tr := [SocketCreate] in
  if decide (cr_create r <> CY_RSLT_SUCCESS) then
    (g, tr ++ [Console "Failed to create socket! Error code: 0x%08x"], cr_create r)
  else
  (* Set the TCP socket receive timeout period. *)
  let tr := tr ++ [SetRcvTimeo (server_handle g) tcp_recv_timeout] in
  if decide (cr_rcvtimeo r <> CY_RSLT_SUCCESS) then
    (g, tr ++ [Console "Set socket option: CY_SOCKET_SO_RCVTIMEO failed"],
     cr_rcvtimeo r)
  else
  (* Register the callback function to handle connection request from a
     TCP client. *)
  let tr := tr ++
    [ SetCallback (server_handle g) CY_SOCKET_SO_CONNECT_REQUEST_CALLBACK
                  cb_tcp_connection_handler ] in
  if decide (cr_connect_cb r <> CY_RSLT_SUCCESS) then
    (g, tr ++ [Console "Set socket option: CY_SOCKET_SO_CONNECT_REQUEST_CALLBACK failed"],
     cr_connect_cb r)
  else
  (* Register the callback function to handle messages received from a
     TCP client. *)
  let tr := tr ++
    [ SetCallback (server_handle g) CY_SOCKET_SO_RECEIVE_CALLBACK
                  cb_tcp_receive_msg_handler ] in
  if decide (cr_receive_cb r <> CY_RSLT_SUCCESS) then
    (g, tr ++ [Console "Set socket option: CY_SOCKET_SO_RECEIVE_CALLBACK failed"],
     cr_receive_cb r)
  else
  (* Register the callback function to handle disconnection. *)
  let tr := tr ++
    [ SetCallback (server_handle g) CY_SOCKET_SO_DISCONNECT_CALLBACK
                  cb_tcp_disconnection_handler ] in
  if decide (cr_disconnect_cb r <> CY_RSLT_SUCCESS) then
    (g, tr ++ [Console "Set socket option: CY_SOCKET_SO_DISCONNECT_CALLBACK failed"],
     cr_disconnect_cb r)
  else
  (* Bind the TCP socket created to Server IP address and to TCP port. *)
  let tr := tr ++ [SocketBind (server_handle g) (tcp_server_addr g)] in
  if decide (cr_bind r <> CY_RSLT_SUCCESS) then
    (g, tr ++ [Console "Failed to bind to socket! Error code: 0x%08x"], cr_bind r)
  else
    (g, tr, cr_bind r).

(** The library calls of a trace, without the console output. *)
Definition calls (tr : list boot_event) : list boot_event :=
  filter (fun e => is_print e = false) tr.

(** *** [tcp_server_task] up to its loop *)

Record startup_replies : Type := StartupReplies {
  st_wcm_init : cy_rslt_t;
  st_connect : nat -> connect_reply;
  st_socket_init : cy_rslt_t;
  st_create : create_replies;
  st_listen : cy_rslt_t
}.

(** Where the task is once the start-up code has run: in its loop, or
    stopped in a failed [CY_ASSERT]. *)
Inductive task_state : Type := EntersLoop | Halted.

Section WithBuild.
Variable hdr : headers.
(** [CY_ASSERT] comes from a header that is not among the sources: whether
    a failed assertion stops the task is a parameter.  [ssid] and
    [password] stand for the [WIFI_SSID] and [WIFI_PASSWORD] macros. *)
Variable assert_halts : bool.
Variables ssid password : string.

Definition tcp_server_task_startup (r : startup_replies) (g : globals)
    : outcome (globals * list boot_event * task_state) :=
  (* Initialize the user button and register interrupt on falling edge. *)
  let tr := [ GpioInit; GpioRegisterCallback cb_isr_button_press;
              GpioEnableFallingEdge true;
              (* Initialize Wi-Fi connection manager. *)
              WcmInit ] in
  let failed := bool_decide (st_wcm_init r <> CY_RSLT_SUCCESS) in
  let tr := if failed
            then tr ++ [Console "Wi-Fi Connection Manager initialization failed! Error code: 0x%08x"]
            else tr in
  if failed && assert_halts then Returns (g, tr, Halted) else
  let tr := tr ++ [Console "Wi-Fi Connection Manager initialized."] in
  (* Connect to Wi-Fi AP *)
  joined <- connect_to_wifi_ap hdr ssid password (st_connect r) g;
  let '(g, tr_join, result) := joined in
  let tr := tr ++ tr_join in
  let failed := bool_decide (result <> CY_RSLT_SUCCESS) in
  let tr := if failed
            then tr ++ [Console "Failed to connect to Wi-Fi AP! Error code: 0x%08x"]
            else tr in
  if failed && assert_halts then Returns (g, tr, Halted) else
  (* Initialize secure socket library. *)
  let tr := tr ++ [SocketInit] in
  let failed := bool_decide (st_socket_init r <> CY_RSLT_SUCCESS) in
  let tr := if failed
            then tr ++ [Console "Secure Socket initialization failed! Error code: 0x%08x"]
            else tr in
  if failed && assert_halts then Returns (g, tr, Halted) else
  let tr := tr ++ [Console "Secure Socket initialized"] in
  (* Create TCP server socket. *)
  let '(g, tr_create, result) := create_tcp_server_socket (st_create r) g in
  let tr := tr ++ tr_create in
  let failed := bool_decide (result <> CY_RSLT_SUCCESS) in
  let tr := if failed
            then tr ++ [Console "Failed to create socket! Error code: 0x%08x"]
            else tr in
  if failed && assert_halts then Returns (g, tr, Halted) else
  (* Start listening on the TCP server socket. *)
  let tr := tr ++
    [SocketListen (server_handle g) TCP_SERVER_MAX_PENDING_CONNECTIONS] in
  if decide (st_listen r <> CY_RSLT_SUCCESS) then
    let tr := tr ++
      [ ServerSocketDelete (server_handle g);
        Console "cy_socket_listen returned error. Error code: 0x%08x" ] in
    Returns (g, tr, if assert_halts then Halted else EntersLoop)
  else
    Returns (g,
             tr ++ [ Console "===============================================================";
                     Console "Listening for incoming TCP client connection on Port: %d" ],
             EntersLoop).

End WithBuild.

(** *** Vocabulary of the start-up properties *)

(** A member array of [size] bytes, zeroed and then filled from the
    literal [s]. *)
Definition credential_field (size : nat) (s : string) : list ascii :=
  literal s ++ drop (length (literal s)) (replicate size NUL).

(** The credentials pass the length checks of [connect_to_wifi_ap] and fit
    the arrays they are copied to. *)
Definition credentials_fit (hdr : headers) (ssid password : string) : Prop :=
  (uint8 (strlen ssid) <> 0 /\ uint8 (strlen ssid) <= CY_WCM_MAX_SSID_LEN hdr
   /\ uint8 (strlen password) <> 0
   /\ uint8 (strlen password) <= CY_WCM_MAX_PASSPHRASE_LEN hdr
   /\ length (literal ssid) <= sizeof_SSID hdr
   /\ length (literal password) <= sizeof_password hdr)%nat.

(** Some attempt among the first [n] is answered with success. *)
Definition joins_within (n : nat) (replies : nat -> connect_reply) : Prop :=
  exists k, (k < n)%nat /\ wcm_result (replies k) = CY_RSLT_SUCCESS.

(** The six calls [create_tcp_server_socket] makes when none fails. *)
Definition listening_socket_setup (h : cy_socket_t)
    (addr : cy_socket_sockaddr_t) : list boot_event :=
  [ SocketCreate;
    SetRcvTimeo h TCP_SERVER_RECV_TIMEOUT_MS;
    SetCallback h CY_SOCKET_SO_CONNECT_REQUEST_CALLBACK cb_tcp_connection_handler;
    SetCallback h CY_SOCKET_SO_RECEIVE_CALLBACK cb_tcp_receive_msg_handler;
    SetCallback h CY_SOCKET_SO_DISCONNECT_CALLBACK cb_tcp_disconnection_handler;
    SocketBind h addr ].

Definition create_all_succeed (r : create_replies) : Prop :=
  cr_create r = CY_RSLT_SUCCESS /\ cr_rcvtimeo r = CY_RSLT_SUCCESS
  /\ cr_connect_cb r = CY_RSLT_SUCCESS /\ cr_receive_cb r = CY_RSLT_SUCCESS
  /\ cr_disconnect_cb r = CY_RSLT_SUCCESS /\ cr_bind r = CY_RSLT_SUCCESS.

End Startup.

(** ** The server's reaction to a sequence of events *)

Module Lifecycle.
Import CString TcpServer.

(** What can happen once the task is in its loop: the worker runs one
    iteration for a notified command, or the sockets library invokes one of
    the three callbacks. *)
Inductive stimulus : Type :=
  | ButtonPress (led_state_cmd : Z) (pin : bool) (send_result : cy_rslt_t)
  | ConnectRequest (listener : cy_socket_t) (acc : accept_reply)
                   (ka : keepalive_replies)
  | DataReceived (h : cy_socket_t) (r : recv_reply)
  | PeerDisconnected (h : cy_socket_t) (disconnect_result : cy_rslt_t).

Definition react (g : globals) (s : stimulus) : outcome globals :=
  match s with
  | ButtonPress led_state_cmd pin send_result =>
      Returns (tcp_server_task_iteration g led_state_cmd pin send_result).1
  | ConnectRequest listener acc ka =>
      Returns (tcp_connection_handler g listener acc ka).1.1
  | DataReceived h r =>
      match tcp_receive_msg_handler g h r with
      | Returns (g', _, _) => Returns g'
      | Undefined f => Undefined f
      end
  | PeerDisconnected h disconnect_result =>
      Returns (tcp_disconnection_handler g h disconnect_result).1.1
  end.

Fixpoint run (g : globals) (l : list stimulus) : outcome globals :=
  match l with
  | [] => Returns g
  | s :: l' =>
      match react g s with
      | Returns g' => run g' l'
      | Undefined f => Undefined f
      end
  end.

(** A connect request whose accept and four keep-alive calls all succeed. *)
Definition connect_succeeds (s : stimulus) : bool :=
  match s with
  | ConnectRequest _ acc ka =>
      bool_decide (acc_result acc = CY_RSLT_SUCCESS
                   /\ ka_interval ka = CY_RSLT_SUCCESS
                   /\ ka_count ka = CY_RSLT_SUCCESS
                   /\ ka_idle_time ka = CY_RSLT_SUCCESS
                   /\ ka_enable ka = CY_RSLT_SUCCESS)
  | _ => false
  end.

Definition is_disconnect (s : stimulus) : bool :=
  match s with PeerDisconnected _ _ => true | _ => false end.

Definition is_setsockopt (e : event) : bool :=
  match e with SocketSetSockOpt _ _ _ _ => true | _ => false end.

Definition is_data (s : stimulus) : bool :=
  match s with DataReceived _ _ => true | _ => false end.

End Lifecycle.

(** ** The call sequences of the two set-up functions *)

Module Steps.
Import TcpServer Startup.

(** [n] is the first call whose reply is not success, and [c] is that
    reply. *)
Definition first_failure (results : list cy_rslt_t) (n : nat) (c : cy_rslt_t)
    : Prop :=
  results !! n = Some c /\ c <> CY_RSLT_SUCCESS
  /\ forall j, (j < n)%nat -> results !! j = Some CY_RSLT_SUCCESS.

(** What [tcp_connection_handler] prints after a successful accept. *)
Definition msg_accepted : list event :=
  [ Printf "Incoming TCP connection accepted";
    Printf "IP Address : %s";
    Printf "Press the user button to send LED ON/OFF command to the TCP client" ].

(** The four keep-alive calls of [tcp_connection_handler] on the accepted
    handle [h], in the order of the source, each with the message printed
    when it fails. *)
Definition keepalive_steps (h : cy_socket_t) : list (event * string) :=
  [ (SocketSetSockOpt h CY_SOCKET_SOL_TCP CY_SOCKET_SO_TCP_KEEPALIVE_INTERVAL
                      TCP_KEEP_ALIVE_INTERVAL_MS,
     "Set socket option: CY_SOCKET_SO_TCP_KEEPALIVE_INTERVAL failed");
    (SocketSetSockOpt h CY_SOCKET_SOL_TCP CY_SOCKET_SO_TCP_KEEPALIVE_COUNT
                      TCP_KEEP_ALIVE_RETRY_COUNT,
     "Set socket option: CY_SOCKET_SO_TCP_KEEPALIVE_COUNT failed");
    (SocketSetSockOpt h CY_SOCKET_SOL_TCP CY_SOCKET_SO_TCP_KEEPALIVE_IDLE_TIME
                      TCP_KEEP_ALIVE_IDLE_TIME_MS,
     "Set socket option: CY_SOCKET_SO_TCP_KEEPALIVE_IDLE_TIME failed");
    (SocketSetSockOpt h CY_SOCKET_SOL_SOCKET CY_SOCKET_SO_TCP_KEEPALIVE_ENABLE 1,
     "Set socket option: CY_SOCKET_SO_TCP_KEEPALIVE_ENABLE failed") ].

(** The replies to those four calls, in the same order. *)
Definition keepalive_results (ka : keepalive_replies) : list cy_rslt_t :=
  [ka_interval ka; ka_count ka; ka_idle_time ka; ka_enable ka].

(** The six calls of [create_tcp_server_socket] on the handle [h], in the
    order of the source, each with the message printed when it fails. *)
Definition create_steps (h : cy_socket_t) (addr : cy_socket_sockaddr_t)
    : list (boot_event * string) :=
  [ (SocketCreate, "Failed to create socket! Error code: 0x%08x");
    (SetRcvTimeo h TCP_SERVER_RECV_TIMEOUT_MS,
     "Set socket option: CY_SOCKET_SO_RCVTIMEO failed");
    (SetCallback h CY_SOCKET_SO_CONNECT_REQUEST_CALLBACK cb_tcp_connection_handler,
     "Set socket option: CY_SOCKET_SO_CONNECT_REQUEST_CALLBACK failed");
    (SetCallback h CY_SOCKET_SO_RECEIVE_CALLBACK cb_tcp_receive_msg_handler,
     "Set socket option: CY_SOCKET_SO_RECEIVE_CALLBACK failed");
    (SetCallback h CY_SOCKET_SO_DISCONNECT_CALLBACK cb_tcp_disconnection_handler,
     "Set socket option: CY_SOCKET_SO_DISCONNECT_CALLBACK failed");
    (SocketBind h addr, "Failed to bind to socket! Error code: 0x%08x") ].

(** The replies to those six calls, in the same order. *)
Definition create_results (r : create_replies) : list cy_rslt_t :=
  [cr_create r; cr_rcvtimeo r; cr_connect_cb r; cr_receive_cb r;
   cr_disconnect_cb r; cr_bind r].

End Steps.

(** ** Sample start-up inputs *)

Module StartupSamples.
Import CString TcpServer Startup Lifecycle.

(** The limits of the Wi-Fi connection manager: SSIDs of up to 32 and
    passphrases of up to 63 characters, each array one byte longer. *)
Definition wcm_limits : headers :=
  Headers 32 63 33 64 (CY_RSLT_ERROR 1) (CY_RSLT_ERROR 2) 4.

(** The access point answers the third attempt. *)
Definition third_time_lucky (n : nat) : connect_reply :=
  if decide (n = 2%nat) then ConnectReply CY_RSLT_SUCCESS 3232238081
  else ConnectReply (CY_RSLT_ERROR (Z.of_nat n)) 0.

(** The access point never answers. *)
Definition out_of_range (n : nat) : connect_reply :=
  ConnectReply (CY_RSLT_ERROR (Z.of_nat n)) 0.

(** An SSID of 257 characters. *)
Definition long_ssid : string :=
  string_of_list_ascii (replicate 257 "a"%char).

Definition create_ok : create_replies :=
  CreateReplies CY_RSLT_SUCCESS 1 CY_RSLT_SUCCESS CY_RSLT_SUCCESS
                CY_RSLT_SUCCESS CY_RSLT_SUCCESS CY_RSLT_SUCCESS.

(** The receive callback cannot be registered. *)
Definition create_receive_cb_refused : create_replies :=
  CreateReplies CY_RSLT_SUCCESS 1 CY_RSLT_SUCCESS CY_RSLT_SUCCESS
                (CY_RSLT_ERROR 5) CY_RSLT_SUCCESS CY_RSLT_SUCCESS.

Definition startup_ok : startup_replies :=
  StartupReplies CY_RSLT_SUCCESS third_time_lucky CY_RSLT_SUCCESS create_ok
                 CY_RSLT_SUCCESS.

Definition startup_listen_fails : startup_replies :=
  StartupReplies CY_RSLT_SUCCESS third_time_lucky CY_RSLT_SUCCESS create_ok
                 (CY_RSLT_ERROR 9).

Definition startup_no_network : startup_replies :=
  StartupReplies CY_RSLT_SUCCESS out_of_range CY_RSLT_SUCCESS create_ok
                 CY_RSLT_SUCCESS.

(** All globals zero, as at reset. *)
Definition at_reset : globals :=
  Globals (SockAddr 0 0 0) (SockAddr 0 0 0) 0 0 0 CYBSP_LED_STATE_OFF false.

End StartupSamples.

(** ** Properties *)

Import Notify CString TcpServer Samples Steps.

(** *** C strings *)

Lemma nat_of_ascii_diff (c1 c2 : ascii) :
  c1 <> c2 -> Z.of_nat (nat_of_ascii c1) - Z.of_nat (nat_of_ascii c2) <> 0.
Proof.
  intros Hne Hz. apply Hne.
  rewrite <- (ascii_nat_embedding c1), <- (ascii_nat_embedding c2).
  f_equal. lia.
Qed.

(** Bytes after a NUL do not belong to the string. *)
Lemma c_str_app_nul (d t : list ascii) : c_str (d ++ NUL :: t) = c_str d.
Proof.
  induction d as [|c d IH]; simpl.
  - destruct (decide (NUL = NUL)); congruence.
  - destruct (decide (c = NUL)); [reflexivity | now rewrite IH].
Qed.

(** Text without a NUL byte is read whole. *)
Lemma c_str_no_nul (d : list ascii) : NUL ∉ d -> c_str d = d.
Proof.
  induction d as [|c d IH]; [reflexivity|].
  intros [Hc Hd]%not_elem_of_cons. simpl.
  destruct (decide (c = NUL)); [congruence | now rewrite IH].
Qed.

(** On an array that holds a terminator, [strcmp] against a literal returns,
    and returns 0 exactly when the array's text is the literal's. *)
Lemma strcmp_literal (lit s : list ascii) :
  NUL ∉ lit -> NUL ∈ s ->
  exists z, strcmp s (lit ++ [NUL]) = Some z /\ (z = 0 <-> c_str s = lit).
Proof.
  revert s. induction lit as [|a lit IH]; intros s Hlit Hs.
  - destruct s as [|c r]; [by apply elem_of_nil in Hs|]. simpl.
    destruct (decide (c = NUL)) as [->|Hc].
    + eexists; split; [reflexivity|]. split; reflexivity.
    + eexists; split; [reflexivity|]. split.
      * intros Hz. exfalso. revert Hz. by apply nat_of_ascii_diff.
      * discriminate.
  - apply not_elem_of_cons in Hlit as [Ha Hlit].
    destruct s as [|c r]; [by apply elem_of_nil in Hs|]. simpl.
    destruct (decide (c = a)) as [->|Hca].
    + destruct (decide (a = NUL)) as [Hz|_]; [congruence|].
      apply elem_of_cons in Hs as [Hs|Hs]; [congruence|].
      destruct (IH r Hlit Hs) as (z & Hcmp & Hiff).
      exists z. split; [exact Hcmp|]. rewrite Hiff.
      split; [intros ->; reflexivity | intros [=]; assumption].
    + eexists; split; [reflexivity|]. split.
      * intros Hz. exfalso. revert Hz. by apply nat_of_ascii_diff.
      * destruct (decide (c = NUL)); [discriminate | intros [=]; congruence].
Qed.

(** The receive buffer after a receive of fewer bytes than its size and the
    store of the terminator. *)
Lemma terminated_buffer (data : list ascii) :
  (length data < MAX_TCP_RECV_BUFFER_SIZE)%nat ->
  store (recv_into (replicate MAX_TCP_RECV_BUFFER_SIZE NUL) data)
        (length data) NUL
  = Returns (data ++ NUL ::
             replicate (MAX_TCP_RECV_BUFFER_SIZE - S (length data)) NUL).
Proof.
  unfold MAX_TCP_RECV_BUFFER_SIZE. intros Hlen. unfold store, recv_into.
  rewrite drop_replicate.
  destruct (20 - length data)%nat as [|k] eqn:Hk; [lia|].
  rewrite decide_True by (rewrite length_app, length_replicate; lia).
  f_equal.
  replace (length data) with (length data + 0)%nat at 1 by lia.
  rewrite insert_app_r. simpl. do 3 f_equal. lia.
Qed.

(** *** [tcp_receive_msg_handler] *)

Lemma ack_on_no_nul : NUL ∉ ack_on.
Proof. vm_compute. intros H. repeat (apply elem_of_cons in H as [H|H]; [discriminate|]). by apply elem_of_nil in H. Qed.

(** A successful receive of fewer bytes than the buffer holds: the handler
    returns, and [led_state] is set from the text before the first NUL. *)
Lemma receive_success_led_state (g : globals) (socket_handle : cy_socket_t)
    (data : list ascii) :
  (length data < MAX_TCP_RECV_BUFFER_SIZE)%nat ->
  tcp_receive_msg_handler g socket_handle (RecvReply CY_RSLT_SUCCESS data)
  = Returns (set_led_state (bool_decide (c_str data = ack_on)) g,
             [ SocketRecv socket_handle MAX_TCP_RECV_BUFFER_SIZE;
               Printf "Acknowledgement from TCP Client: %s" ] ++ msg_press_button,
             CY_RSLT_SUCCESS).
Proof.
  intros Hlen. unfold tcp_receive_msg_handler. cbn [recv_result recv_data].
  rewrite decide_True by reflexivity.
  rewrite (terminated_buffer data Hlen).
  destruct (strcmp_literal ack_on
              (data ++ NUL :: replicate (MAX_TCP_RECV_BUFFER_SIZE - S (length data)) NUL)
              ack_on_no_nul) as (z & Hcmp & Hiff).
  { apply elem_of_app. right. apply elem_of_cons. by left. }
  change (literal "LED ON ACK") with (ack_on ++ [NUL]). rewrite Hcmp.
  rewrite c_str_app_nul in Hiff.
  destruct (decide (z = 0)) as [Hz|Hz].
  - rewrite bool_decide_eq_true_2 by (by apply Hiff). reflexivity.
  - rewrite bool_decide_eq_false_2 by (intros H; by apply Hz, Hiff). reflexivity.
Qed.

(** C4, as amended: for every successful receive of fewer than 20 bytes the
    handler returns the receive's result and changes no global but
    [led_state], which becomes ON exactly when the received bytes before
    their first NUL byte are "LED ON ACK" and OFF for any other content
    (there is no other path); for content without a NUL byte that is: ON
    exactly when the received bytes are "LED ON ACK". *)
Theorem receive_sets_led_by_c_string (g : globals) (socket_handle : cy_socket_t)
    (data : list ascii) :
  (length data < MAX_TCP_RECV_BUFFER_SIZE)%nat ->
  exists led tr,
    tcp_receive_msg_handler g socket_handle (RecvReply CY_RSLT_SUCCESS data)
    = Returns (set_led_state led g, tr, CY_RSLT_SUCCESS)
    /\ (led = CYBSP_LED_STATE_ON <-> c_str data = list_ascii_of_string "LED ON ACK")
    /\ (led = CYBSP_LED_STATE_OFF <-> c_str data <> list_ascii_of_string "LED ON ACK")
    /\ (NUL ∉ data ->
        (led = CYBSP_LED_STATE_ON <-> data = list_ascii_of_string "LED ON ACK")).
Proof.
  intros Hlen. eexists _, _.
  split; [apply (receive_success_led_state g socket_handle data Hlen)|].
  change (list_ascii_of_string "LED ON ACK") with ack_on.
  unfold CYBSP_LED_STATE_ON, CYBSP_LED_STATE_OFF.
  rewrite bool_decide_eq_true, bool_decide_eq_false.
  repeat split; auto.
  - intros Hled. rewrite <- (c_str_no_nul data) by assumption. exact Hled.
  - intros ->. rewrite (c_str_no_nul ack_on) by assumption. reflexivity.
Qed.

Lemma receive_sets_led_by_c_string_witness :
  (length ack_on < MAX_TCP_RECV_BUFFER_SIZE)%nat /\
  exists led tr,
    tcp_receive_msg_handler connected_off 2 (RecvReply CY_RSLT_SUCCESS ack_on)
    = Returns (set_led_state led connected_off, tr, CY_RSLT_SUCCESS)
    /\ (led = CYBSP_LED_STATE_ON <-> c_str ack_on = list_ascii_of_string "LED ON ACK").
Proof.
  split; [vm_compute; lia|].
  destruct (receive_sets_led_by_c_string connected_off 2 ack_on)
    as (led & tr & E & Hon & _).
  - vm_compute. lia.
  - exists led, tr. split; assumption.
Defined.

(** C4, counterexample: twelve received bytes that are not the text
    "LED ON ACK" (it is followed by a NUL byte and an 'x') set [led_state]
    to ON. *)
Lemma receive_nul_payload_sets_led_on :
  ack_on_nul_x <> list_ascii_of_string "LED ON ACK" /\
  exists g' tr res,
    tcp_receive_msg_handler connected_off 2 (RecvReply CY_RSLT_SUCCESS ack_on_nul_x)
    = Returns (g', tr, res) /\
    led_state g' = CYBSP_LED_STATE_ON.
Proof.
  split; [discriminate|].
  do 3 eexists. split; [vm_compute; reflexivity | reflexivity].
Qed.

(** C10, the failing input: a receive that fills the buffer makes the
    terminator store fall at index 20 of the 20-byte array. *)
Theorem receive_full_buffer_store_out_of_bounds (g : globals)
    (socket_handle : cy_socket_t) (data : list ascii) :
  length data = MAX_TCP_RECV_BUFFER_SIZE ->
  tcp_receive_msg_handler g socket_handle (RecvReply CY_RSLT_SUCCESS data)
  = Undefined (StoreOutOfBounds 20 20).
Proof.
  unfold MAX_TCP_RECV_BUFFER_SIZE. intros Hlen.
  unfold tcp_receive_msg_handler, store, recv_into. cbn [recv_result recv_data].
  rewrite decide_True by reflexivity.
  rewrite length_app, length_drop, length_replicate, Hlen.
  reflexivity.
Qed.

Lemma receive_full_buffer_store_out_of_bounds_witness :
  length twenty_bytes = MAX_TCP_RECV_BUFFER_SIZE /\
  tcp_receive_msg_handler connected_on 2 (RecvReply CY_RSLT_SUCCESS twenty_bytes)
  = Undefined (StoreOutOfBounds 20 20).
Proof.
  split; [reflexivity|].
  apply (receive_full_buffer_store_out_of_bounds connected_on 2 twenty_bytes).
  reflexivity.
Defined.

(** The store is inside the array for every shorter receive. *)
Lemma receive_store_in_bounds (data : list ascii) :
  (length data < MAX_TCP_RECV_BUFFER_SIZE)%nat ->
  exists buf,
    store (recv_into (replicate MAX_TCP_RECV_BUFFER_SIZE NUL) data)
          (length data) NUL = Returns buf /\
    length buf = MAX_TCP_RECV_BUFFER_SIZE /\ buf !! length data = Some NUL.
Proof.
  intros Hlen. rewrite (terminated_buffer data Hlen). eexists. split; [reflexivity|].
  unfold MAX_TCP_RECV_BUFFER_SIZE in *. split.
  - rewrite length_app. simpl. rewrite length_replicate. lia.
  - rewrite lookup_app_r by lia. replace (length data - length data)%nat with 0%nat by lia.
    reflexivity.
Qed.

(** *** [tcp_disconnection_handler] *)

(** C5: whatever the globals hold (a set or clear [led_state], a set or
    clear [client_connected]) and whatever [cy_socket_disconnect] returns,
    the disconnect callback disconnects and deletes the handle it is given,
    clears [client_connected] and resets [led_state] to OFF; the other
    globals keep their values. *)
Theorem disconnection_always_clears (g : globals) (socket_handle : cy_socket_t)
    (disconnect_result : cy_rslt_t) :
  exists msgs,
    tcp_disconnection_handler g socket_handle disconnect_result
    = (set_led_state false (set_client_connected false g),
       SocketDisconnect socket_handle 0 :: SocketDelete socket_handle :: msgs,
       disconnect_result)
    /\ Forall (fun e => is_printf e = true) msgs
    /\ cleared (set_led_state false (set_client_connected false g)).
Proof.
  eexists. split; [reflexivity|]. split.
  - repeat constructor.
  - split; reflexivity.
Qed.

(** Running the callback on an already cleared registry leaves it cleared. *)
Lemma disconnection_idempotent (g : globals) (h1 h2 : cy_socket_t)
    (r1 r2 : cy_rslt_t) :
  (tcp_disconnection_handler
     (tcp_disconnection_handler g h1 r1).1.1 h2 r2).1.1
  = (tcp_disconnection_handler g h1 r1).1.1.
Proof. reflexivity. Qed.

(** *** [tcp_connection_handler] *)

(** The handler never clears [client_connected], and the peer globals hold
    what [cy_socket_accept] stored. *)
Lemma connection_handler_globals (g : globals) (socket_handle : cy_socket_t)
    (acc : accept_reply) (ka : keepalive_replies) :
  let g' := (tcp_connection_handler g socket_handle acc ka).1.1 in
  (client_connected g = true -> client_connected g' = true)
  /\ client_handle g' = acc_client_handle acc
  /\ peer_addr g' = acc_peer_addr acc
  /\ peer_addr_len g' = acc_peer_addr_len acc
  /\ led_state g' = led_state g.
Proof.
  unfold tcp_connection_handler.
  repeat case_decide; cbn; auto.
Qed.

(** C2, counterexample: a client is connected on handle 2 when a second
    connect request arrives.  The request is not rejected: the handler
    returns success and [client_handle] now holds the new handle 3. *)
Lemma second_connect_request_replaces_peer :
  client_connected connected_on = true /\
  exists g' tr,
    tcp_connection_handler connected_on 1 second_peer keepalive_ok
    = (g', tr, CY_RSLT_SUCCESS) /\
    client_handle g' <> client_handle connected_on /\
    peer_addr g' <> peer_addr connected_on.
Proof.
  split; [reflexivity|].
  do 2 eexists. split; [vm_compute; reflexivity|]. split; discriminate.
Qed.

(** What the handler leaves in the globals and returns when a peer is
    already registered. *)
Lemma connect_request_summary (g : globals)
    (socket_handle : cy_socket_t) (acc : accept_reply) (ka : keepalive_replies) :
  client_connected g = true ->
  exists g' tr res,
    tcp_connection_handler g socket_handle acc ka
    = (g', SocketAccept socket_handle :: tr, res)
    /\ client_connected g' = true
    /\ client_handle g' = acc_client_handle acc
    /\ peer_addr g' = acc_peer_addr acc
    /\ peer_addr_len g' = acc_peer_addr_len acc
    /\ (acc_result acc = CY_RSLT_SUCCESS -> ka = keepalive_ok ->
        res = CY_RSLT_SUCCESS).
Proof.
  intros Hconn.
  pose proof (connection_handler_globals g socket_handle acc ka) as Hg.
  cbv zeta in Hg. destruct Hg as (Hc & Hh & Ha & Hl & _).
  destruct (tcp_connection_handler g socket_handle acc ka) as [[g' tr] res] eqn:E.
  cbn in Hc, Hh, Ha, Hl.
  assert (exists tr', tr = SocketAccept socket_handle :: tr') as [tr' ->].
  { revert E. unfold tcp_connection_handler.
    repeat case_decide; intros [= <- <- <-]; eexists; reflexivity. }
  exists g', tr', res. repeat split; auto.
  intros Hacc ->. revert E. unfold tcp_connection_handler.
  rewrite decide_True by exact Hacc. cbn.
  intros [= <- <- <-]. reflexivity.
Qed.

(** The handler never reads [client_connected]: with the flag set it makes
    the calls and returns the result it would with the flag clear, and
    leaves the same globals but for the flag, which stays set. *)
Lemma connection_handler_ignores_flag (g : globals)
    (socket_handle : cy_socket_t) (acc : accept_reply) (ka : keepalive_replies) :
  client_connected g = true ->
  tcp_connection_handler g socket_handle acc ka
  = (set_client_connected true
       (tcp_connection_handler (set_client_connected false g)
                               socket_handle acc ka).1.1,
     (tcp_connection_handler (set_client_connected false g)
                             socket_handle acc ka).1.2,
     (tcp_connection_handler (set_client_connected false g)
                             socket_handle acc ka).2).
Proof.
  destruct g as [sa pa sh ch pl led cc]. cbn [client_connected]. intros ->.
  unfold tcp_connection_handler. repeat case_decide; reflexivity.
Qed.

(** When the accept and the four keep-alive calls succeed. *)
Lemma connection_all_succeed (g : globals)
    (socket_handle : cy_socket_t) (acc : accept_reply) (ka : keepalive_replies) :
  acc_result acc = CY_RSLT_SUCCESS -> ka = keepalive_ok ->
  tcp_connection_handler g socket_handle acc ka
  = (set_client_connected true
       (set_peer (acc_peer_addr acc) (acc_peer_addr_len acc)
                 (acc_client_handle acc) g),
     SocketAccept socket_handle :: msg_accepted
     ++ (keepalive_steps (acc_client_handle acc)).*1,
     CY_RSLT_SUCCESS).
Proof.
  intros Hacc ->. unfold tcp_connection_handler.
  rewrite decide_True by exact Hacc. reflexivity.
Qed.

(** C2, as amended: a connect request that arrives while a peer is
    registered is handled like a first one.  The handler does not consult
    [client_connected]: it makes exactly the calls, and returns exactly the
    result, that it would with no peer registered, and there is no
    rejection.  Afterwards the peer address, its length and [client_handle]
    hold what the accept call stored and nothing else has changed
    ([client_connected] is still set); and when the accept and the four
    keep-alive calls succeed the handler has accepted, printed its three
    messages, made the four keep-alive calls on the new handle, and returns
    success. *)
Theorem connect_request_while_connected (g : globals)
    (socket_handle : cy_socket_t) (acc : accept_reply) (ka : keepalive_replies) :
  client_connected g = true ->
  (exists g' tr res,
     tcp_connection_handler g socket_handle acc ka
     = (g', SocketAccept socket_handle :: tr, res)
     /\ client_connected g' = true
     /\ client_handle g' = acc_client_handle acc
     /\ peer_addr g' = acc_peer_addr acc
     /\ peer_addr_len g' = acc_peer_addr_len acc
     /\ (acc_result acc = CY_RSLT_SUCCESS -> ka = keepalive_ok ->
         res = CY_RSLT_SUCCESS))
  /\ (tcp_connection_handler g socket_handle acc ka).1.2
     = (tcp_connection_handler (set_client_connected false g)
                               socket_handle acc ka).1.2
  /\ (tcp_connection_handler g socket_handle acc ka).2
     = (tcp_connection_handler (set_client_connected false g)
                               socket_handle acc ka).2
  /\ (tcp_connection_handler g socket_handle acc ka).1.1
     = set_peer (acc_peer_addr acc) (acc_peer_addr_len acc)
                (acc_client_handle acc) g
  /\ (acc_result acc = CY_RSLT_SUCCESS -> ka = keepalive_ok ->
      tcp_connection_handler g socket_handle acc ka
      = (set_peer (acc_peer_addr acc) (acc_peer_addr_len acc)
                  (acc_client_handle acc) g,
         SocketAccept socket_handle :: msg_accepted
         ++ (keepalive_steps (acc_client_handle acc)).*1,
         CY_RSLT_SUCCESS)).
Proof.
  intros Hconn.
  assert (set_client_connected true
            (set_peer (acc_peer_addr acc) (acc_peer_addr_len acc)
                      (acc_client_handle acc) g)
          = set_peer (acc_peer_addr acc) (acc_peer_addr_len acc)
                     (acc_client_handle acc) g) as Hset.
  { destruct g. cbn in Hconn. subst. reflexivity. }
  split; [exact (connect_request_summary g socket_handle acc ka Hconn)|].
  rewrite (connection_handler_ignores_flag g socket_handle acc ka Hconn).
  cbn [fst snd]. split; [reflexivity|]. split; [reflexivity|]. split.
  - rewrite <- Hset. destruct g as [sa pa sh ch pl led cc].
    unfold tcp_connection_handler. repeat case_decide; reflexivity.
  - intros Hacc Hka.
    rewrite (connection_all_succeed _ socket_handle acc ka Hacc Hka).
    cbn [fst snd]. destruct g as [sa pa sh ch pl led cc]. cbn in Hconn.
    subst cc. reflexivity.
Qed.

Lemma connect_request_while_connected_witness :
  client_connected connected_on = true /\
  tcp_connection_handler connected_on 1 second_peer keepalive_ok
  = (set_peer (acc_peer_addr second_peer) (acc_peer_addr_len second_peer)
              (acc_client_handle second_peer) connected_on,
     SocketAccept 1 :: msg_accepted
     ++ (keepalive_steps (acc_client_handle second_peer)).*1,
     CY_RSLT_SUCCESS).
Proof.
  split; [reflexivity|].
  destruct (connect_request_while_connected connected_on 1 second_peer
              keepalive_ok eq_refl) as (_ & _ & _ & _ & Hall).
  apply Hall; reflexivity.
Defined.

(** Membership in a list written out. *)
Ltac elem_of_list :=
  repeat (apply elem_of_cons; first [left; reflexivity | right]).

(** With [client_connected] clear the worker sends nothing. *)
Lemma not_connected_no_send (g : globals) (led_state_cmd : Z) (pin : bool)
    (send_result : cy_rslt_t) :
  client_connected g = false ->
  tcp_server_task_iteration g led_state_cmd pin send_result
  = (g, [GpioEnableEvent false; TaskDelay DEBOUNCE_DELAY_MS; GpioEnableEvent true]).
Proof.
  intros Hc. unfold tcp_server_task_iteration. rewrite Hc.
  destruct pin; reflexivity.
Qed.

(** C3, counterexample: no client is registered, the accept succeeds and
    the first keep-alive option is refused.  The handler returns the error
    with [client_connected] still clear, and a button press afterwards
    sends nothing. *)
Lemma keepalive_failure_leaves_peer_unregistered :
  acc_result first_peer = CY_RSLT_SUCCESS /\
  exists g' tr,
    tcp_connection_handler listening 1 first_peer keepalive_interval_refused
    = (g', tr, CY_RSLT_ERROR 1) /\
    client_connected g' = false /\
    Forall (fun e => is_send e = false)
           (tcp_server_task_iteration g' LED_ON_CMD false CY_RSLT_SUCCESS).2.
Proof.
  split; [reflexivity|].
  do 2 eexists. split; [vm_compute; reflexivity|]. split; [reflexivity|].
  vm_compute. repeat constructor.
Qed.

(** What a failed keep-alive step leaves behind, whichever step it is. *)
Lemma keepalive_failure_summary (g : globals)
    (socket_handle : cy_socket_t) (acc : accept_reply) (ka : keepalive_replies) :
  acc_result acc = CY_RSLT_SUCCESS ->
  ka_interval ka <> CY_RSLT_SUCCESS \/ ka_count ka <> CY_RSLT_SUCCESS \/
  ka_idle_time ka <> CY_RSLT_SUCCESS \/ ka_enable ka <> CY_RSLT_SUCCESS ->
  exists tr msg res,
    tcp_connection_handler g socket_handle acc ka
    = (set_peer (acc_peer_addr acc) (acc_peer_addr_len acc)
                (acc_client_handle acc) g,
       tr ++ [Printf msg], res)
    /\ res <> CY_RSLT_SUCCESS
    /\ res ∈ [ka_interval ka; ka_count ka; ka_idle_time ka; ka_enable ka]
    /\ (ka_interval ka <> CY_RSLT_SUCCESS -> res = ka_interval ka)
    /\ Forall (fun e => match e with
                        | SocketAccept _ | SocketSetSockOpt _ _ _ _ | Printf _ => True
                        | _ => False
                        end) tr
    /\ client_connected (tcp_connection_handler g socket_handle acc ka).1.1
       = client_connected g
    /\ (client_connected g = false ->
        forall led_state_cmd pin send_result,
          Forall (fun e => is_send e = false)
                 (tcp_server_task_iteration
                    (tcp_connection_handler g socket_handle acc ka).1.1
                    led_state_cmd pin send_result).2).
Proof.
  intros Hacc Hfail. unfold tcp_connection_handler.
  rewrite decide_True by exact Hacc.
  assert (forall g0 led_state_cmd pin send_result,
             client_connected g0 = false ->
             Forall (fun e => is_send e = false)
                    (tcp_server_task_iteration g0 led_state_cmd pin send_result).2)
    as Hsend.
  { intros g0 c p r H0. rewrite (not_connected_no_send g0 c p r H0).
    repeat constructor. }
  repeat case_decide; cbn [fst snd].
  - eexists _, _, _. split; [reflexivity|].
    repeat split; auto; try (repeat constructor; fail); elem_of_list.
  - eexists _, _, _. split; [reflexivity|].
    repeat split; auto; try (repeat constructor; fail);
      try contradiction; elem_of_list.
  - eexists _, _, _. split; [reflexivity|].
    repeat split; auto; try (repeat constructor; fail);
      try contradiction; elem_of_list.
  - eexists _, _, _. split; [reflexivity|].
    repeat split; auto; try (repeat constructor; fail);
      try contradiction; elem_of_list.
  - exfalso. tauto.
Qed.

(** The handler stops at the first keep-alive call that fails: it has made
    the calls up to and including that one, prints that call's message and
    returns its reply. *)
Lemma connection_first_failure (g : globals)
    (socket_handle : cy_socket_t) (acc : accept_reply) (ka : keepalive_replies)
    (n : nat) (c : cy_rslt_t) (call : event) (msg : string) :
  acc_result acc = CY_RSLT_SUCCESS ->
  first_failure (keepalive_results ka) n c ->
  keepalive_steps (acc_client_handle acc) !! n = Some (call, msg) ->
  tcp_connection_handler g socket_handle acc ka
  = (set_peer (acc_peer_addr acc) (acc_peer_addr_len acc)
              (acc_client_handle acc) g,
     SocketAccept socket_handle :: msg_accepted
     ++ (take (S n) (keepalive_steps (acc_client_handle acc))).*1
     ++ [Printf msg],
     c).
Proof.
  intros Hacc (Hn & Hc & Hprev) Hstep. unfold tcp_connection_handler.
  rewrite decide_True by exact Hacc.
  destruct n as [|[|[|[|n]]]]; cbn in Hn, Hstep; try discriminate;
    injection Hn as Hn; injection Hstep as _ Hmsg; subst msg.
  - rewrite Hn. rewrite decide_True by exact Hc. reflexivity.
  - pose proof (Hprev 0%nat ltac:(lia)) as H0. cbn in H0. injection H0 as H0.
    rewrite H0, Hn. rewrite decide_False by (intros Hx; apply Hx; reflexivity).
    rewrite decide_True by exact Hc. reflexivity.
  - pose proof (Hprev 0%nat ltac:(lia)) as H0. cbn in H0. injection H0 as H0.
    pose proof (Hprev 1%nat ltac:(lia)) as H1. cbn in H1. injection H1 as H1.
    rewrite H0, H1, Hn.
    rewrite !decide_False by (intros Hx; apply Hx; reflexivity).
    rewrite decide_True by exact Hc. reflexivity.
  - pose proof (Hprev 0%nat ltac:(lia)) as H0. cbn in H0. injection H0 as H0.
    pose proof (Hprev 1%nat ltac:(lia)) as H1. cbn in H1. injection H1 as H1.
    pose proof (Hprev 2%nat ltac:(lia)) as H2. cbn in H2. injection H2 as H2.
    rewrite H0, H1, H2, Hn.
    rewrite !decide_False by (intros Hx; apply Hx; reflexivity).
    rewrite decide_True by exact Hc. reflexivity.
Qed.

(** C3, as amended: if, after a successful accept, a keep-alive step fails,
    the handler reports it and returns that step's error code at once,
    without the remaining steps and without setting [client_connected]: it
    has made the keep-alive calls up to and including the first one that
    failed and no later one, its last action is printing that call's
    message, and it returns that call's reply.  The flag keeps the value it
    had before the request, while the peer address and [client_handle]
    already hold the accepted peer's.  The accepted socket is neither
    disconnected nor deleted.  In particular, with no peer registered
    before, button presses afterwards send nothing. *)
Theorem keepalive_failure_returns_early (g : globals)
    (socket_handle : cy_socket_t) (acc : accept_reply) (ka : keepalive_replies) :
  acc_result acc = CY_RSLT_SUCCESS ->
  ka_interval ka <> CY_RSLT_SUCCESS \/ ka_count ka <> CY_RSLT_SUCCESS \/
  ka_idle_time ka <> CY_RSLT_SUCCESS \/ ka_enable ka <> CY_RSLT_SUCCESS ->
  (exists n c call msg,
     first_failure (keepalive_results ka) n c
     /\ keepalive_steps (acc_client_handle acc) !! n = Some (call, msg)
     /\ tcp_connection_handler g socket_handle acc ka
        = (set_peer (acc_peer_addr acc) (acc_peer_addr_len acc)
                    (acc_client_handle acc) g,
           SocketAccept socket_handle :: msg_accepted
           ++ (take (S n) (keepalive_steps (acc_client_handle acc))).*1
           ++ [Printf msg],
           c))
  /\ (exists tr msg res,
        tcp_connection_handler g socket_handle acc ka
        = (set_peer (acc_peer_addr acc) (acc_peer_addr_len acc)
                    (acc_client_handle acc) g,
           tr ++ [Printf msg], res)
        /\ res <> CY_RSLT_SUCCESS
        /\ res ∈ [ka_interval ka; ka_count ka; ka_idle_time ka; ka_enable ka]
        /\ (ka_interval ka <> CY_RSLT_SUCCESS -> res = ka_interval ka)
        /\ Forall (fun e => match e with
                            | SocketAccept _ | SocketSetSockOpt _ _ _ _ | Printf _ => True
                            | _ => False
                            end) tr
        /\ client_connected (tcp_connection_handler g socket_handle acc ka).1.1
           = client_connected g
        /\ (client_connected g = false ->
            forall led_state_cmd pin send_result,
              Forall (fun e => is_send e = false)
                     (tcp_server_task_iteration
                        (tcp_connection_handler g socket_handle acc ka).1.1
                        led_state_cmd pin send_result).2)).
Proof.
  intros Hacc Hfail.
  split; [|exact (keepalive_failure_summary g socket_handle acc ka Hacc Hfail)].
  assert (exists n c, first_failure (keepalive_results ka) n c) as (n & c & Hff).
  { unfold first_failure, keepalive_results.
    destruct (decide (ka_interval ka = CY_RSLT_SUCCESS)) as [H0|H0];
      [|exists 0%nat, (ka_interval ka); repeat split; auto; intros j Hj; lia].
    destruct (decide (ka_count ka = CY_RSLT_SUCCESS)) as [H1|H1];
      [|exists 1%nat, (ka_count ka); repeat split; auto; intros j Hj;
        destruct j as [|j]; [cbn; congruence | lia]].
    destruct (decide (ka_idle_time ka = CY_RSLT_SUCCESS)) as [H2|H2];
      [|exists 2%nat, (ka_idle_time ka); repeat split; auto; intros j Hj;
        destruct j as [|[|j]]; [cbn; congruence | cbn; congruence | lia]].
    destruct (decide (ka_enable ka = CY_RSLT_SUCCESS)) as [H3|H3];
      [exfalso; tauto|].
    exists 3%nat, (ka_enable ka); repeat split; auto; intros j Hj.
    destruct j as [|[|[|j]]]; [cbn; congruence | cbn; congruence
                              | cbn; congruence | lia]. }
  assert (exists call msg,
            keepalive_steps (acc_client_handle acc) !! n = Some (call, msg))
    as (call & msg & Hstep).
  { destruct Hff as (Hn & _). apply lookup_lt_Some in Hn. cbn in Hn.
    destruct (keepalive_steps (acc_client_handle acc) !! n) as [[call msg]|] eqn:E;
      [eauto|].
    apply lookup_ge_None in E. cbn in E. lia. }
  exists n, c, call, msg. split; [exact Hff|]. split; [exact Hstep|].
  exact (connection_first_failure g socket_handle acc ka n c call msg
           Hacc Hff Hstep).
Qed.

Lemma keepalive_failure_returns_early_witness :
  acc_result first_peer = CY_RSLT_SUCCESS /\
  ka_interval keepalive_interval_refused <> CY_RSLT_SUCCESS /\
  exists n c call msg,
    first_failure (keepalive_results keepalive_interval_refused) n c
    /\ keepalive_steps (acc_client_handle first_peer) !! n = Some (call, msg)
    /\ tcp_connection_handler listening 1 first_peer keepalive_interval_refused
       = (set_peer (acc_peer_addr first_peer) (acc_peer_addr_len first_peer)
                   (acc_client_handle first_peer) listening,
          SocketAccept 1 :: msg_accepted
          ++ (take (S n) (keepalive_steps (acc_client_handle first_peer))).*1
          ++ [Printf msg],
          c).
Proof.
  split; [reflexivity|]. split; [discriminate|].
  destruct (keepalive_failure_returns_early listening 1 first_peer
              keepalive_interval_refused) as [Hexact _].
  - reflexivity.
  - left. discriminate.
  - exact Hexact.
Defined.

(** *** The worker loop *)

(** C8: on every path through the loop body (the button released during
    the debounce delay, no client connected, send succeeded, send failed
    with or without the peer-closed code) the worker first disables the
    button interrupt and its last call, before it blocks again, enables it;
    and with no client connected a button press makes no send, prints no
    error, leaves the globals alone and re-arms the interrupt. *)
Theorem worker_always_rearms_interrupt (g : globals) (led_state_cmd : Z)
    (pin : bool) (send_result : cy_rslt_t) :
  (exists body,
     (tcp_server_task_iteration g led_state_cmd pin send_result).2
     = GpioEnableEvent false :: body ++ [GpioEnableEvent true]
     /\ Forall (fun e => match e with GpioEnableEvent _ => False | _ => True end)
               body)
  /\ (forall before,
        irq_enabled_after
          (tcp_server_task_iteration g led_state_cmd pin send_result).2 before
        = true)
  /\ (client_connected g = false ->
      tcp_server_task_iteration g led_state_cmd pin send_result
      = (g, [GpioEnableEvent false; TaskDelay DEBOUNCE_DELAY_MS;
             GpioEnableEvent true])).
Proof.
  split; [|split].
  - unfold tcp_server_task_iteration.
    destruct pin, (client_connected g); cbn [negb snd];
      repeat case_decide; cbn;
      match goal with
      | |- exists body, _ :: ?l = _ /\ _ =>
          exists (removelast l); split; [reflexivity | repeat constructor]
      end.
  - intros before. unfold tcp_server_task_iteration, irq_enabled_after.
    cbn [snd]. rewrite fold_left_app. reflexivity.
  - apply not_connected_no_send.
Qed.

Lemma worker_always_rearms_interrupt_witness :
  client_connected listening = false /\
  tcp_server_task_iteration listening LED_ON_CMD false CY_RSLT_SUCCESS
  = (listening, [GpioEnableEvent false; TaskDelay DEBOUNCE_DELAY_MS;
                 GpioEnableEvent true]).
Proof.
  split; [reflexivity|].
  apply (worker_always_rearms_interrupt listening LED_ON_CMD false CY_RSLT_SUCCESS).
  reflexivity.
Defined.

(** C9: when the send fails with a code other than the peer-closed code,
    the worker made exactly one send, printed the failure, and did nothing
    else but the interrupt bookkeeping: the globals ([client_connected],
    [client_handle], [led_state] and the rest) are unchanged and the socket
    is neither disconnected nor deleted. *)
Theorem transient_send_failure_only_logged (g : globals) (led_state_cmd : Z)
    (send_result : cy_rslt_t) :
  client_connected g = true ->
  send_result <> CY_RSLT_SUCCESS ->
  send_result <> CY_RSLT_MODULE_SECURE_SOCKETS_CLOSED ->
  tcp_server_task_iteration g led_state_cmd false send_result
  = (g, [ GpioEnableEvent false; TaskDelay DEBOUNCE_DELAY_MS;
          SocketSend (client_handle g) [led_state_cmd mod 256];
          Printf "Failed to send command to client. Error code: 0x%08x";
          GpioEnableEvent true ]).
Proof.
  intros Hc Hs Hcl. unfold tcp_server_task_iteration. rewrite Hc. cbn [negb].
  rewrite decide_False by exact Hs. rewrite decide_False by exact Hcl.
  reflexivity.
Qed.

Lemma transient_send_failure_only_logged_witness :
  client_connected connected_on = true /\
  tcp_server_task_iteration connected_on LED_OFF_CMD false (CY_RSLT_ERROR 7)
  = (connected_on,
     [ GpioEnableEvent false; TaskDelay DEBOUNCE_DELAY_MS;
       SocketSend (client_handle connected_on) [LED_OFF_CMD mod 256];
       Printf "Failed to send command to client. Error code: 0x%08x";
       GpioEnableEvent true ]).
Proof.
  split; [reflexivity|].
  apply (transient_send_failure_only_logged connected_on LED_OFF_CMD (CY_RSLT_ERROR 7));
    [reflexivity | discriminate | discriminate].
Defined.

(** The peer-closed paths of the worker and of the receive callback tear the
    socket down but write no global. *)
Lemma send_peer_closed_keeps_globals (g : globals) (led_state_cmd : Z) :
  client_connected g = true ->
  tcp_server_task_iteration g led_state_cmd false
                            CY_RSLT_MODULE_SECURE_SOCKETS_CLOSED
  = (g, [ GpioEnableEvent false; TaskDelay DEBOUNCE_DELAY_MS;
          SocketSend (client_handle g) [led_state_cmd mod 256];
          Printf "Failed to send command to client. Error code: 0x%08x";
          SocketDisconnect (client_handle g) 0;
          SocketDelete (client_handle g);
          GpioEnableEvent true ]).
Proof.
  intros Hc. unfold tcp_server_task_iteration. rewrite Hc. reflexivity.
Qed.

Lemma receive_peer_closed_keeps_globals (g : globals)
    (socket_handle : cy_socket_t) (data : list ascii) :
  tcp_receive_msg_handler g socket_handle
    (RecvReply CY_RSLT_MODULE_SECURE_SOCKETS_CLOSED data)
  = Returns (g,
             [ SocketRecv socket_handle MAX_TCP_RECV_BUFFER_SIZE;
               Printf "Failed to receive acknowledgement from the TCP client. Error: 0x%08x";
               SocketDisconnect socket_handle 0;
               SocketDelete socket_handle ] ++ msg_press_button,
             CY_RSLT_MODULE_SECURE_SOCKETS_CLOSED).
Proof. reflexivity. Qed.

(** C1, the failing input: a client is connected on handle 2 with
    [led_state] set.  When the worker's send, or the receive callback's
    receive, gets the peer-closed code, the socket is disconnected and
    deleted but [client_connected] and [led_state] stay set, whereas the
    disconnect callback leaves both clear; the next button press sends on
    the deleted handle. *)
Theorem peer_closed_paths_do_not_clear_registry :
  let after_send :=
    (tcp_server_task_iteration connected_on LED_OFF_CMD false
                               CY_RSLT_MODULE_SECURE_SOCKETS_CLOSED) in
  SocketDelete 2 ∈ after_send.2
  /\ client_connected after_send.1 = true
  /\ led_state after_send.1 = CYBSP_LED_STATE_ON
  /\ ~ cleared after_send.1
  /\ (exists tr,
        tcp_receive_msg_handler connected_on 2
          (RecvReply CY_RSLT_MODULE_SECURE_SOCKETS_CLOSED [])
        = Returns (connected_on, tr, CY_RSLT_MODULE_SECURE_SOCKETS_CLOSED)
        /\ SocketDelete 2 ∈ tr /\ ~ cleared connected_on)
  /\ cleared (tcp_disconnection_handler connected_on 2 CY_RSLT_SUCCESS).1.1
  /\ SocketSend 2 [LED_OFF_CMD]
       ∈ (tcp_server_task_iteration after_send.1 LED_OFF_CMD false
                                    CY_RSLT_SUCCESS).2.
Proof.
  cbv zeta.
  rewrite (send_peer_closed_keeps_globals connected_on LED_OFF_CMD eq_refl).
  rewrite (receive_peer_closed_keeps_globals connected_on 2 []).
  cbn [fst snd].
  assert (~ cleared connected_on) as Hnc by (intros [H _]; discriminate H).
  repeat split; try exact Hnc.
  - elem_of_list.
  - eexists. split; [reflexivity|]. split; [elem_of_list | exact Hnc].
  - vm_compute. elem_of_list.
Qed.

(** *** The ISR and the notification channel *)

(** C6: while a posted value is still unconsumed, a button press in the ISR
    returns at once with [pdFAIL]: the slot keeps the pending value and the
    new one is dropped.  The worker then consumes the preserved value in
    one iteration and blocks at the next wait, so the two posts produce a
    single iteration. *)
Theorem pending_notification_is_not_overwritten (g : globals) (s : slot) :
  pending s = true ->
  isr_button_press g s = (s, pdFAIL)
  /\ xTaskNotifyWait (isr_button_press g s).1
     = Some (ulNotifiedValue s, Slot (ulNotifiedValue s) false)
  /\ forall pin send_result pin' send_result',
       exists g1 s1 tr1,
         tcp_server_task_step g (isr_button_press g s).1 pin send_result
         = Some (g1, s1, tr1)
         /\ (g1, tr1)
            = tcp_server_task_iteration g (ulNotifiedValue s) pin send_result
         /\ tcp_server_task_step g1 s1 pin' send_result' = None.
Proof.
  intros Hp.
  assert (isr_button_press g s = (s, pdFAIL)) as Hisr.
  { unfold isr_button_press, xTaskNotifyFromISR. rewrite Hp. reflexivity. }
  rewrite Hisr. cbn [fst].
  assert (xTaskNotifyWait s
          = Some (ulNotifiedValue s, Slot (ulNotifiedValue s) false)) as Hwait.
  { unfold xTaskNotifyWait. rewrite Hp. reflexivity. }
  repeat split; [exact Hwait|].
  intros pin send_result pin' send_result'.
  unfold tcp_server_task_step at 1. rewrite Hwait.
  destruct (tcp_server_task_iteration g (ulNotifiedValue s) pin send_result)
    as [g1 tr1].
  exists g1, (Slot (ulNotifiedValue s) false), tr1.
  repeat split.
Qed.

Lemma pending_notification_is_not_overwritten_witness :
  pending (Slot LED_ON_CMD true) = true /\
  isr_button_press connected_on (Slot LED_ON_CMD true)
  = (Slot LED_ON_CMD true, pdFAIL).
Proof.
  split; [reflexivity|].
  apply (pending_notification_is_not_overwritten connected_on (Slot LED_ON_CMD true)).
  reflexivity.
Defined.

(** A post on an empty slot is accepted. *)
Lemma isr_posts_on_empty_slot (g : globals) (s : slot) :
  pending s = false ->
  isr_button_press g s = (Slot (isr_led_state_cmd g) true, pdPASS).
Proof.
  intros Hp. unfold isr_button_press, xTaskNotifyFromISR. rewrite Hp. reflexivity.
Qed.

(** C7: the ISR chooses '1' (ON) when [led_state] is clear and '0' (OFF)
    when it is set.  Hence, from a clear [led_state] with a client
    connected and nothing pending: a button press posts '1'; the worker
    sends the byte '1'; when the send has succeeded and the client's
    "LED ON ACK" is received, [led_state] is set; and the next button press
    posts '0'. *)
Theorem toggle_law (g : globals) (s : slot) (socket_handle : cy_socket_t) :
  (forall g0, isr_led_state_cmd g0
              = if led_state g0 then LED_OFF_CMD else LED_ON_CMD)
  /\ (led_state g = false -> client_connected g = true -> pending s = false ->
      exists s1 g1 s2 tr1 g2 tr2,
        isr_button_press g s = (s1, pdPASS)
        /\ ulNotifiedValue s1 = LED_ON_CMD
        /\ tcp_server_task_step g s1 false CY_RSLT_SUCCESS = Some (g1, s2, tr1)
        /\ SocketSend (client_handle g) [LED_ON_CMD] ∈ tr1
        /\ tcp_receive_msg_handler g1 socket_handle
             (RecvReply CY_RSLT_SUCCESS ack_on)
           = Returns (g2, tr2, CY_RSLT_SUCCESS)
        /\ led_state g2 = true
        /\ isr_button_press g2 s2 = (Slot LED_OFF_CMD true, pdPASS)).
Proof.
  split.
  - intros g0. unfold isr_led_state_cmd.
    destruct (led_state g0); reflexivity.
  - intros Hled Hconn Hp.
    assert (isr_led_state_cmd g = LED_ON_CMD) as Hcmd.
    { unfold isr_led_state_cmd. rewrite Hled. reflexivity. }
    eexists _, g, _, _, _, _.
    split; [rewrite (isr_posts_on_empty_slot g s Hp), Hcmd; reflexivity|].
    split; [reflexivity|].
    split.
    { unfold tcp_server_task_step, xTaskNotifyWait, tcp_server_task_iteration.
      cbn. rewrite Hconn. cbn. reflexivity. }
    split; [elem_of_list|].
    split.
    { apply receive_success_led_state. vm_compute. lia. }
    split; [reflexivity|].
    reflexivity.
Qed.

Lemma toggle_law_witness :
  led_state connected_off = false /\
  client_connected connected_off = true /\
  pending (Slot 0 false) = false /\
  exists g2 s2,
    led_state g2 = true /\
    isr_button_press g2 s2 = (Slot LED_OFF_CMD true, pdPASS).
Proof.
  split; [reflexivity|]. split; [reflexivity|]. split; [reflexivity|].
  destruct (toggle_law connected_off (Slot 0 false) 2) as [_ Hlaw].
  destruct (Hlaw eq_refl eq_refl eq_refl)
    as (s1 & g1 & s2 & tr1 & g2 & tr2 & _ & _ & _ & _ & _ & Hled & Hisr).
  exists g2, s2. split; assumption.
Defined.

(** ** Further properties of the worker and the callbacks *)

Import Startup Lifecycle StartupSamples.

(** X1: the worker sends if and only if the button still reads pressed
    after the debounce delay and a client is connected.  If the button was
    released in the meantime it makes no socket call and prints nothing,
    connected or not. *)
Theorem worker_sends_iff_pressed_and_connected (g : globals)
    (led_state_cmd : Z) (pin : bool) (send_result : cy_rslt_t) :
  (Exists (fun e => is_send e = true)
          (tcp_server_task_iteration g led_state_cmd pin send_result).2
   <-> pin = false /\ client_connected g = true)
  /\ (pin = true ->
      (tcp_server_task_iteration g led_state_cmd pin send_result).2
      = [GpioEnableEvent false; TaskDelay DEBOUNCE_DELAY_MS;
         GpioEnableEvent true]).
Proof.
  split.
  - unfold tcp_server_task_iteration.
    destruct pin, (client_connected g); cbn [negb snd app]; split.
    all: try (intros [? ?]; discriminate).
    all: try (intros _; split; reflexivity).
    all: try (intros H; exfalso; revert H; rewrite !Exists_cons, Exists_nil;
              cbn; intuition discriminate).
    intros _. repeat case_decide; cbn;
      do 2 apply Exists_cons_tl; apply Exists_cons_hd; reflexivity.
  - intros ->. reflexivity.
Qed.

Lemma worker_sends_iff_pressed_and_connected_witness :
  (tcp_server_task_iteration connected_on LED_OFF_CMD true CY_RSLT_SUCCESS).2
  = [GpioEnableEvent false; TaskDelay DEBOUNCE_DELAY_MS; GpioEnableEvent true].
Proof.
  apply (worker_sends_iff_pressed_and_connected connected_on LED_OFF_CMD true
           CY_RSLT_SUCCESS).
  reflexivity.
Defined.

(** The sends of a worker iteration. *)
Lemma iteration_sends (g : globals) (led_state_cmd : Z) (send_result : cy_rslt_t) :
  client_connected g = true ->
  filter (fun e => is_send e = true)
         (tcp_server_task_iteration g led_state_cmd false send_result).2
  = [SocketSend (client_handle g) [led_state_cmd mod 256]].
Proof.
  intros Hc. unfold tcp_server_task_iteration. rewrite Hc. cbn [negb].
  repeat case_decide; reflexivity.
Qed.

(** X2: with a client connected and the button held, one press makes
    exactly one send, of a single byte on [client_handle], whatever the
    send returns; for the command the ISR chose from [led_state] that byte
    is '1' when the LED is off and '0' when it is on. *)
Theorem press_sends_one_command_byte (g : globals) (send_result : cy_rslt_t) :
  client_connected g = true ->
  filter (fun e => is_send e = true)
         (tcp_server_task_iteration g (isr_led_state_cmd g) false send_result).2
  = [SocketSend (client_handle g) [if led_state g then 48 else 49]].
Proof.
  intros Hc. rewrite (iteration_sends g _ send_result Hc).
  unfold isr_led_state_cmd. destruct (led_state g); reflexivity.
Qed.

Lemma press_sends_one_command_byte_witness :
  client_connected connected_off = true /\
  filter (fun e => is_send e = true)
         (tcp_server_task_iteration connected_off
            (isr_led_state_cmd connected_off) false (CY_RSLT_ERROR 3)).2
  = [SocketSend 2 [49]].
Proof.
  split; [reflexivity|].
  apply (press_sends_one_command_byte connected_off (CY_RSLT_ERROR 3)).
  reflexivity.
Defined.

(** X3: the worker never writes a global, on any path, and every socket
    call it makes is on [client_handle]. *)
Theorem worker_writes_no_global (g : globals) (led_state_cmd : Z) (pin : bool)
    (send_result : cy_rslt_t) :
  (tcp_server_task_iteration g led_state_cmd pin send_result).1 = g
  /\ Forall (fun e => match e with
                      | SocketSend h _ | SocketDisconnect h _ | SocketDelete h =>
                          h = client_handle g
                      | SocketAccept _ | SocketRecv _ _
                      | SocketSetSockOpt _ _ _ _ => False
                      | _ => True
                      end)
            (tcp_server_task_iteration g led_state_cmd pin send_result).2.
Proof.
  split; [reflexivity|].
  unfold tcp_server_task_iteration.
  destruct pin, (client_connected g); cbn [negb snd];
    repeat case_decide; repeat constructor.
Qed.

(** X4: when [cy_socket_accept] fails, the connect-request handler returns
    the accept's error, makes no keep-alive call, announces that it is
    listening, and leaves [client_connected] and [led_state] as they
    were. *)
Theorem accept_failure_keeps_listening (g : globals) (socket_handle : cy_socket_t)
    (acc : accept_reply) (ka : keepalive_replies) :
  acc_result acc <> CY_RSLT_SUCCESS ->
  exists g',
    tcp_connection_handler g socket_handle acc ka
    = (g',
       SocketAccept socket_handle
       :: Printf "Failed to accept incoming client connection. Error code: 0x%08x"
       :: msg_listening,
       acc_result acc)
    /\ client_connected g' = client_connected g
    /\ led_state g' = led_state g.
Proof.
  intros Hacc. unfold tcp_connection_handler.
  rewrite decide_False by exact Hacc.
  eexists. split; [reflexivity|]. split; reflexivity.
Qed.

Lemma accept_failure_keeps_listening_witness :
  acc_result (AcceptReply (CY_RSLT_ERROR 4) (SockAddr 0 0 0) 0 0)
    <> CY_RSLT_SUCCESS /\
  exists g',
    tcp_connection_handler listening 1
      (AcceptReply (CY_RSLT_ERROR 4) (SockAddr 0 0 0) 0 0) keepalive_ok
    = (g',
       SocketAccept 1
       :: Printf "Failed to accept incoming client connection. Error code: 0x%08x"
       :: msg_listening,
       CY_RSLT_ERROR 4)
    /\ client_connected g' = client_connected listening
    /\ led_state g' = led_state listening.
Proof.
  split; [discriminate|].
  apply (accept_failure_keeps_listening listening 1
           (AcceptReply (CY_RSLT_ERROR 4) (SockAddr 0 0 0) 0 0) keepalive_ok).
  discriminate.
Defined.

(** The handler's result and the flag, by cases on the replies. *)
Lemma connection_handler_result (g : globals) (socket_handle : cy_socket_t)
    (acc : accept_reply) (ka : keepalive_replies) :
  let out := tcp_connection_handler g socket_handle acc ka in
  (out.2 = CY_RSLT_SUCCESS <->
   acc_result acc = CY_RSLT_SUCCESS /\ ka_interval ka = CY_RSLT_SUCCESS
   /\ ka_count ka = CY_RSLT_SUCCESS /\ ka_idle_time ka = CY_RSLT_SUCCESS
   /\ ka_enable ka = CY_RSLT_SUCCESS)
  /\ client_connected out.1.1
     = client_connected g || bool_decide (out.2 = CY_RSLT_SUCCESS).
Proof.
  unfold tcp_connection_handler.
  repeat case_decide; cbn [fst snd client_connected set_client_connected set_peer];
    (split; [split; [intros ?; try contradiction; try tauto | try tauto] |]);
    try (rewrite bool_decide_eq_false_2 by assumption; now rewrite orb_false_r).
  rewrite bool_decide_eq_true_2 by assumption. now rewrite orb_true_r.
Qed.

(** X5: the connect-request handler returns success exactly when the accept
    and the four keep-alive calls all succeed, and it sets
    [client_connected] exactly in that case: on every other outcome the
    flag keeps its value. *)
Theorem connection_registers_iff_success (g : globals)
    (socket_handle : cy_socket_t) (acc : accept_reply) (ka : keepalive_replies) :
  let out := tcp_connection_handler g socket_handle acc ka in
  (out.2 = CY_RSLT_SUCCESS <->
   acc_result acc = CY_RSLT_SUCCESS /\ ka_interval ka = CY_RSLT_SUCCESS
   /\ ka_count ka = CY_RSLT_SUCCESS /\ ka_idle_time ka = CY_RSLT_SUCCESS
   /\ ka_enable ka = CY_RSLT_SUCCESS)
  /\ (out.2 = CY_RSLT_SUCCESS -> client_connected out.1.1 = true)
  /\ (out.2 <> CY_RSLT_SUCCESS ->
      client_connected out.1.1 = client_connected g).
Proof.
  cbv zeta.
  destruct (connection_handler_result g socket_handle acc ka) as [Hiff Hflag].
  cbv zeta in Hiff, Hflag.
  split; [exact Hiff|]. rewrite Hflag. split; intros H.
  - rewrite bool_decide_eq_true_2 by exact H. apply orb_true_r.
  - rewrite bool_decide_eq_false_2 by exact H. apply orb_false_r.
Qed.

Lemma connection_registers_iff_success_witness :
  (tcp_connection_handler listening 1 first_peer keepalive_ok).2
    = CY_RSLT_SUCCESS /\
  client_connected (tcp_connection_handler listening 1 first_peer keepalive_ok).1.1
    = true.
Proof.
  split; [reflexivity|].
  apply (connection_registers_iff_success listening 1 first_peer keepalive_ok).
  reflexivity.
Defined.

(** X6: keep-alive is switched on only after its three parameters have been
    accepted.  The enabling call is made exactly when the accept and the
    interval, count and idle-time calls succeeded, and then the option
    calls are, in this order and on the accepted handle: interval 1000 ms,
    2 retries, idle time 10000 ms, enable. *)
Theorem keepalive_enabled_after_parameters (g : globals)
    (socket_handle : cy_socket_t) (acc : accept_reply) (ka : keepalive_replies) :
  let tr := (tcp_connection_handler g socket_handle acc ka).1.2 in
  let h := acc_client_handle acc in
  (SocketSetSockOpt h CY_SOCKET_SOL_SOCKET CY_SOCKET_SO_TCP_KEEPALIVE_ENABLE 1 ∈ tr
   <-> acc_result acc = CY_RSLT_SUCCESS /\ ka_interval ka = CY_RSLT_SUCCESS
       /\ ka_count ka = CY_RSLT_SUCCESS /\ ka_idle_time ka = CY_RSLT_SUCCESS)
  /\ (SocketSetSockOpt h CY_SOCKET_SOL_SOCKET CY_SOCKET_SO_TCP_KEEPALIVE_ENABLE 1 ∈ tr ->
      filter (fun e => is_setsockopt e = true) tr
      = [ SocketSetSockOpt h CY_SOCKET_SOL_TCP CY_SOCKET_SO_TCP_KEEPALIVE_INTERVAL 1000;
          SocketSetSockOpt h CY_SOCKET_SOL_TCP CY_SOCKET_SO_TCP_KEEPALIVE_COUNT 2;
          SocketSetSockOpt h CY_SOCKET_SOL_TCP CY_SOCKET_SO_TCP_KEEPALIVE_IDLE_TIME 10000;
          SocketSetSockOpt h CY_SOCKET_SOL_SOCKET CY_SOCKET_SO_TCP_KEEPALIVE_ENABLE 1 ]).
Proof.
  cbv zeta. unfold tcp_connection_handler, msg_listening.
  repeat case_decide; cbn [fst snd app client_handle set_peer].
  all: rewrite ?elem_of_cons, ?elem_of_nil.
  all: split; [split; [intros Hin | intros (? & ? & ? & ?)] | intros Hin].
  all: try contradiction.
  all: try (exfalso; intuition discriminate).
  all: try (repeat split; assumption).
  all: try reflexivity.
  all: repeat (first [left; reflexivity | right]).
Qed.

Lemma keepalive_enabled_after_parameters_witness :
  SocketSetSockOpt 2 CY_SOCKET_SOL_SOCKET CY_SOCKET_SO_TCP_KEEPALIVE_ENABLE 1
    ∈ (tcp_connection_handler listening 1 first_peer keepalive_ok).1.2 /\
  filter (fun e => is_setsockopt e = true)
         (tcp_connection_handler listening 1 first_peer keepalive_ok).1.2
  = [ SocketSetSockOpt 2 CY_SOCKET_SOL_TCP CY_SOCKET_SO_TCP_KEEPALIVE_INTERVAL 1000;
      SocketSetSockOpt 2 CY_SOCKET_SOL_TCP CY_SOCKET_SO_TCP_KEEPALIVE_COUNT 2;
      SocketSetSockOpt 2 CY_SOCKET_SOL_TCP CY_SOCKET_SO_TCP_KEEPALIVE_IDLE_TIME 10000;
      SocketSetSockOpt 2 CY_SOCKET_SOL_SOCKET CY_SOCKET_SO_TCP_KEEPALIVE_ENABLE 1 ].
Proof.
  assert (SocketSetSockOpt 2 CY_SOCKET_SOL_SOCKET CY_SOCKET_SO_TCP_KEEPALIVE_ENABLE 1
            ∈ (tcp_connection_handler listening 1 first_peer keepalive_ok).1.2)
    as Hin by (vm_compute; elem_of_list).
  split; [exact Hin|].
  apply (keepalive_enabled_after_parameters listening 1 first_peer keepalive_ok).
  exact Hin.
Defined.

(** Whatever the receive callback returns, it wrote no global but
    [led_state] and hands back [cy_socket_recv]'s result. *)
Lemma receive_frame (g g' : globals) (socket_handle : cy_socket_t)
    (r : recv_reply) (tr : list event) (res : cy_rslt_t) :
  tcp_receive_msg_handler g socket_handle r = Returns (g', tr, res) ->
  g' = set_led_state (led_state g') g /\ res = recv_result r
  /\ (recv_result r <> CY_RSLT_SUCCESS -> g' = g).
Proof.
  unfold tcp_receive_msg_handler. destruct g.
  case_decide as Hres.
  - destruct (store _ _ _); [|discriminate].
    destruct (strcmp _ _); [|discriminate].
    case_decide; intros [= <- <- <-]; (split; [reflexivity|]);
      split; auto; intros; contradiction.
  - intros [= <- <- <-]. repeat split.
Qed.

(** X7: a failed receive changes no global; the socket is disconnected and
    deleted exactly when the failure is the peer-closed code, and any other
    failure is only printed.  On every path that returns, the callback has
    written no global but [led_state] and returns the receive's result. *)
Theorem receive_failure_changes_nothing (g : globals)
    (socket_handle : cy_socket_t) (r : recv_reply) :
  (recv_result r <> CY_RSLT_SUCCESS ->
   tcp_receive_msg_handler g socket_handle r
   = Returns (g,
              [ SocketRecv socket_handle MAX_TCP_RECV_BUFFER_SIZE;
                Printf "Failed to receive acknowledgement from the TCP client. Error: 0x%08x" ]
              ++ (if decide (recv_result r = CY_RSLT_MODULE_SECURE_SOCKETS_CLOSED)
                  then [SocketDisconnect socket_handle 0; SocketDelete socket_handle]
                  else [])
              ++ msg_press_button,
              recv_result r))
  /\ (forall g' tr res,
        tcp_receive_msg_handler g socket_handle r = Returns (g', tr, res) ->
        g' = set_led_state (led_state g') g /\ res = recv_result r).
Proof.
  split.
  - intros Hres. unfold tcp_receive_msg_handler.
    rewrite decide_False by exact Hres. case_decide; reflexivity.
  - intros g' tr res E.
    destruct (receive_frame g g' socket_handle r tr res E) as (? & ? & _).
    split; assumption.
Qed.

Lemma receive_failure_changes_nothing_witness :
  recv_result (RecvReply (CY_RSLT_ERROR 6) []) <> CY_RSLT_SUCCESS /\
  tcp_receive_msg_handler connected_on 2 (RecvReply (CY_RSLT_ERROR 6) [])
  = Returns (connected_on,
             [ SocketRecv 2 MAX_TCP_RECV_BUFFER_SIZE;
               Printf "Failed to receive acknowledgement from the TCP client. Error: 0x%08x" ]
             ++ [] ++ msg_press_button,
             CY_RSLT_ERROR 6).
Proof.
  split; [discriminate|].
  apply (receive_failure_changes_nothing connected_on 2
           (RecvReply (CY_RSLT_ERROR 6) [])).
  discriminate.
Defined.

(** ** Properties of the start-up code *)

(** *** [MAKE_IP_PARAMETERS] *)

Lemma land_shifted_small (y x n : Z) :
  0 <= n -> 0 <= x < 2 ^ n -> Z.land (y * 2 ^ n) x = 0.
Proof.
  intros Hn Hx. rewrite <- Z.shiftl_mul_pow2 by exact Hn.
  apply Z.bits_inj'. intros i Hi.
  rewrite Z.land_spec, Z.bits_0.
  destruct (Z.lt_ge_cases i n) as [Hlt|Hge].
  - rewrite Z.shiftl_spec_low by exact Hlt. reflexivity.
  - assert (Z.testbit x i = false) as ->; [|apply andb_false_r].
    apply Z.testbit_false; [exact Hi|].
    rewrite Z.div_small; [reflexivity|].
    split; [lia|]. apply Z.lt_le_trans with (2 ^ n); [lia|].
    apply Z.pow_le_mono_r; lia.
Qed.

Lemma lor_shifted_small (y x n : Z) :
  0 <= n -> 0 <= x < 2 ^ n -> Z.lor (y * 2 ^ n) x = y * 2 ^ n + x.
Proof.
  intros Hn Hx. rewrite <- Z.add_lor_land.
  rewrite (land_shifted_small y x n Hn Hx). lia.
Qed.

(** For four octets the macro is their base-256 number, lowest first. *)
Lemma make_ip_value (a b c d : Z) :
  0 <= a < 256 -> 0 <= b < 256 -> 0 <= c < 256 -> 0 <= d < 256 ->
  MAKE_IP_PARAMETERS a b c d = a + 256 * b + 65536 * c + 16777216 * d.
Proof.
  intros Ha Hb Hc Hd. unfold MAKE_IP_PARAMETERS, uint32.
  rewrite !Z.shiftl_mul_pow2 by lia.
  pose proof (eq_refl : 2 ^ 8 = 256) as P8.
  pose proof (eq_refl : 2 ^ 16 = 65536) as P16.
  pose proof (eq_refl : 2 ^ 24 = 16777216) as P24.
  pose proof (eq_refl : 2 ^ 32 = 4294967296) as P32.
  rewrite (Z.mod_small a) by lia.
  rewrite (Z.mod_small b) by lia.
  rewrite (Z.mod_small c) by lia.
  rewrite (Z.mod_small d) by lia.
  rewrite !Z.mod_small by lia.
  rewrite (lor_shifted_small d (c * 2 ^ 16) 24) by lia.
  replace (d * 2 ^ 24 + c * 2 ^ 16) with ((d * 256 + c) * 2 ^ 16) by lia.
  rewrite (lor_shifted_small _ (b * 2 ^ 8) 16) by lia.
  replace ((d * 256 + c) * 2 ^ 16 + b * 2 ^ 8)
    with (((d * 256 + c) * 256 + b) * 2 ^ 8) by lia.
  rewrite (lor_shifted_small _ a 8) by lia.
  lia.
Qed.

(** X8: for four octets [a.b.c.d] the macro yields a 32-bit value whose
    bytes in memory, lowest address first, are [a], [b], [c], [d]. *)
Theorem make_ip_parameters_bytes (a b c d : Z) :
  0 <= a < 256 -> 0 <= b < 256 -> 0 <= c < 256 -> 0 <= d < 256 ->
  uint32_bytes (MAKE_IP_PARAMETERS a b c d) = [a; b; c; d]
  /\ 0 <= MAKE_IP_PARAMETERS a b c d < 2 ^ 32.
Proof.
  intros Ha Hb Hc Hd. rewrite (make_ip_value a b c d Ha Hb Hc Hd).
  split; [|change (2 ^ 32) with 4294967296; lia]. unfold uint32_bytes.
  repeat f_equal; Z.div_mod_to_equations; lia.
Qed.

Lemma make_ip_parameters_bytes_witness :
  uint32_bytes (MAKE_IP_PARAMETERS 192 168 10 1) = [192; 168; 10; 1].
Proof.
  apply (make_ip_parameters_bytes 192 168 10 1); lia.
Defined.

(** *** [connect_to_wifi_ap] *)

Section JoinLoop.
Variable hdr : headers.
Variables ssid_field password_field : list ascii.
Variable replies : nat -> connect_reply.
Variable g : globals.

Lemma join_loop_first_success (k : nat) :
  forall (n i : nat) (result : cy_rslt_t),
  (k < n)%nat ->
  (forall j, (j < k)%nat ->
             wcm_result (replies (i + j)%nat) <> CY_RSLT_SUCCESS) ->
  wcm_result (replies (i + k)%nat) = CY_RSLT_SUCCESS ->
  join_loop hdr n i ssid_field password_field replies g result
  = (set_tcp_server_addr
       (SockAddr TCP_SERVER_PORT (CY_SOCKET_IP_VER_V4 hdr)
                 (wcm_ip_v4 (replies (i + k)%nat))) g,
     concat (replicate k (failed_attempt ssid_field password_field))
     ++ [ WcmConnectAp ssid_field password_field;
          Console "Successfully connected to Wi-Fi network '%s'.";
          Console "IP Address Assigned: %s" ],
     CY_RSLT_SUCCESS).
Proof.
  induction k as [|k IH]; intros n i result Hn Hfail Hok.
  - destruct n as [|n]; [lia|]. rewrite Nat.add_0_r in *. simpl.
    rewrite decide_True by exact Hok. rewrite Hok. reflexivity.
  - destruct n as [|n]; [lia|]. simpl join_loop.
    rewrite decide_False
      by (specialize (Hfail 0%nat); rewrite Nat.add_0_r in Hfail; apply Hfail; lia).
    rewrite (IH n (S i)).
    + replace (S i + k)%nat with (i + S k)%nat by lia. reflexivity.
    + lia.
    + intros j Hj. replace (S i + j)%nat with (i + S j)%nat by lia.
      apply Hfail. lia.
    + replace (S i + k)%nat with (i + S k)%nat by lia. exact Hok.
Qed.

Lemma join_loop_all_fail (n : nat) :
  forall (i : nat) (result : cy_rslt_t),
  (forall j, (j < n)%nat ->
             wcm_result (replies (i + j)%nat) <> CY_RSLT_SUCCESS) ->
  join_loop hdr n i ssid_field password_field replies g result
  = (g,
     concat (replicate n (failed_attempt ssid_field password_field))
     ++ [Console "Exceeded maximum Wi-Fi connection attempts"],
     match n with
     | O => result
     | S m => wcm_result (replies (i + m)%nat)
     end).
Proof.
  induction n as [|n IH]; intros i result Hfail; [reflexivity|].
  simpl join_loop.
  rewrite decide_False
    by (specialize (Hfail 0%nat); rewrite Nat.add_0_r in Hfail; apply Hfail; lia).
  rewrite (IH (S i)).
  - destruct n as [|m].
    + rewrite Nat.add_0_r. reflexivity.
    + replace (S i + m)%nat with (i + S m)%nat by lia. reflexivity.
  - intros j Hj. replace (S i + j)%nat with (i + S j)%nat by lia.
    apply Hfail. lia.
Qed.

End JoinLoop.

(** Either some attempt below [n] is the first to succeed, or all fail. *)
Lemma first_success_or_none (replies : nat -> connect_reply) (n : nat) :
  (exists k, (k < n)%nat
             /\ (forall j, (j < k)%nat ->
                           wcm_result (replies j) <> CY_RSLT_SUCCESS)
             /\ wcm_result (replies k) = CY_RSLT_SUCCESS)
  \/ (forall j, (j < n)%nat -> wcm_result (replies j) <> CY_RSLT_SUCCESS).
Proof.
  induction n as [|n [(k & Hk & Hfail & Hok)|Hnone]].
  - right. intros j Hj. lia.
  - left. exists k. repeat split; auto; lia.
  - destruct (decide (wcm_result (replies n) = CY_RSLT_SUCCESS)) as [Hok|Hno].
    + left. exists n. repeat split; auto.
    + right. intros j Hj. destruct (decide (j = n)) as [->|Hne]; [exact Hno|].
      apply Hnone. lia.
Qed.

Lemma count_failed_attempts (s p : list ascii) (k : nat) (rest : list boot_event) :
  length (filter (fun e => is_connect_ap e = true)
                 (concat (replicate k (failed_attempt s p)) ++ rest))
  = (k + length (filter (fun e => is_connect_ap e = true) rest))%nat.
Proof.
  induction k as [|k IH]; [reflexivity|].
  cbn [replicate concat]. rewrite <- app_assoc.
  unfold failed_attempt at 1. cbn [app].
  rewrite filter_cons_True by reflexivity.
  rewrite !filter_cons_False by discriminate.
  cbn [length]. rewrite IH. reflexivity.
Qed.

(** With fitting credentials the function is its loop. *)
Lemma connect_with_fitting_credentials (hdr : headers) (ssid password : string)
    (replies : nat -> connect_reply) (g : globals) :
  credentials_fit hdr ssid password ->
  connect_to_wifi_ap hdr ssid password replies g
  = let '(g', tr, res) :=
      join_loop hdr MAX_WIFI_CONN_RETRIES 0
                (credential_field (sizeof_SSID hdr) ssid)
                (credential_field (sizeof_password hdr) password)
                replies g CY_RSLT_SUCCESS in
    Returns (g', Console "Connecting to Wi-Fi Network: %s" :: tr, res).
Proof.
  intros (Hs0 & Hs & Hp0 & Hp & Hsz & Hpz). unfold connect_to_wifi_ap.
  rewrite decide_False by lia. rewrite decide_False by lia.
  unfold memcpy. rewrite !length_replicate.
  rewrite decide_True by exact Hsz. rewrite decide_True by exact Hpz.
  reflexivity.
Qed.

Lemma sample_credentials_fit : credentials_fit wcm_limits WIFI_SSID WIFI_PASSWORD.
Proof. unfold credentials_fit. vm_compute. repeat split; lia. Qed.

(** X9: with fitting credentials, if the attempt number [k] (counted from
    0, below 10) is the first to succeed, the function returns success
    after exactly [k] failed attempts, each followed by a 1000 ms wait, and
    one successful attempt; [tcp_server_addr] then holds port 50007, IP
    version 4 and the address assigned in that attempt, and no other global
    has changed. *)
Theorem join_stops_at_first_success (hdr : headers) (ssid password : string)
    (replies : nat -> connect_reply) (g : globals) (k : nat) :
  credentials_fit hdr ssid password ->
  (k < MAX_WIFI_CONN_RETRIES)%nat ->
  (forall j, (j < k)%nat -> wcm_result (replies j) <> CY_RSLT_SUCCESS) ->
  wcm_result (replies k) = CY_RSLT_SUCCESS ->
  connect_to_wifi_ap hdr ssid password replies g
  = Returns
      (set_tcp_server_addr
         (SockAddr TCP_SERVER_PORT (CY_SOCKET_IP_VER_V4 hdr)
                   (wcm_ip_v4 (replies k))) g,
       Console "Connecting to Wi-Fi Network: %s"
       :: concat (replicate k (failed_attempt
                                 (credential_field (sizeof_SSID hdr) ssid)
                                 (credential_field (sizeof_password hdr) password)))
       ++ [ WcmConnectAp (credential_field (sizeof_SSID hdr) ssid)
                         (credential_field (sizeof_password hdr) password);
            Console "Successfully connected to Wi-Fi network '%s'.";
            Console "IP Address Assigned: %s" ],
       CY_RSLT_SUCCESS).
Proof.
  intros Hfit Hk Hfail Hok.
  rewrite (connect_with_fitting_credentials hdr ssid password replies g Hfit).
  rewrite (join_loop_first_success hdr _ _ replies g k MAX_WIFI_CONN_RETRIES 0
             CY_RSLT_SUCCESS Hk Hfail Hok).
  reflexivity.
Qed.

Lemma join_stops_at_first_success_witness :
  credentials_fit wcm_limits WIFI_SSID WIFI_PASSWORD /\
  wcm_result (third_time_lucky 2) = CY_RSLT_SUCCESS /\
  exists tr,
    connect_to_wifi_ap wcm_limits WIFI_SSID WIFI_PASSWORD third_time_lucky at_reset
    = Returns (set_tcp_server_addr (SockAddr 50007 4 3232238081) at_reset,
               tr, CY_RSLT_SUCCESS)
    /\ length (filter (fun e => is_connect_ap e = true) tr) = 3%nat
    /\ length (filter (fun e => is_retry_delay e = true) tr) = 2%nat.
Proof.
  split; [exact sample_credentials_fit|]. split; [reflexivity|].
  eexists. split.
  - apply (join_stops_at_first_success wcm_limits WIFI_SSID WIFI_PASSWORD
             third_time_lucky at_reset 2 sample_credentials_fit).
    + unfold MAX_WIFI_CONN_RETRIES. lia.
    + intros j Hj. destruct j as [|[|j]]; [discriminate | discriminate | lia].
    + reflexivity.
  - split; reflexivity.
Defined.

(** X10: with fitting credentials, if the first ten attempts all fail the
    function gives up: it has made exactly ten attempts, waited 1000 ms
    after each of them (the last one included), reports that the maximum
    was exceeded, returns the error of the tenth attempt and leaves every
    global as it was. *)
Theorem join_gives_up_after_ten_attempts (hdr : headers) (ssid password : string)
    (replies : nat -> connect_reply) (g : globals) :
  credentials_fit hdr ssid password ->
  (forall j, (j < MAX_WIFI_CONN_RETRIES)%nat ->
             wcm_result (replies j) <> CY_RSLT_SUCCESS) ->
  connect_to_wifi_ap hdr ssid password replies g
  = Returns
      (g,
       Console "Connecting to Wi-Fi Network: %s"
       :: concat (replicate 10 (failed_attempt
                                  (credential_field (sizeof_SSID hdr) ssid)
                                  (credential_field (sizeof_password hdr) password)))
       ++ [Console "Exceeded maximum Wi-Fi connection attempts"],
       wcm_result (replies 9%nat)).
Proof.
  intros Hfit Hfail.
  rewrite (connect_with_fitting_credentials hdr ssid password replies g Hfit).
  rewrite (join_loop_all_fail hdr _ _ replies g MAX_WIFI_CONN_RETRIES 0
             CY_RSLT_SUCCESS Hfail).
  reflexivity.
Qed.

Lemma join_gives_up_after_ten_attempts_witness :
  credentials_fit wcm_limits WIFI_SSID WIFI_PASSWORD /\
  exists tr,
    connect_to_wifi_ap wcm_limits WIFI_SSID WIFI_PASSWORD out_of_range at_reset
    = Returns (at_reset, tr, CY_RSLT_ERROR 9)
    /\ length (filter (fun e => is_connect_ap e = true) tr) = 10%nat
    /\ length (filter (fun e => is_retry_delay e = true) tr) = 10%nat.
Proof.
  split; [exact sample_credentials_fit|].
  eexists. split.
  - apply (join_gives_up_after_ten_attempts wcm_limits WIFI_SSID WIFI_PASSWORD
             out_of_range at_reset sample_credentials_fit).
    intros j _. discriminate.
  - split; reflexivity.
Defined.

(** X11: with fitting credentials the function always returns; it returns
    success exactly when one of the first ten attempts succeeds; it never
    makes more than ten attempts; when it fails no global has changed, and
    in every case no global but [tcp_server_addr] has. *)
Theorem join_succeeds_iff_within_ten (hdr : headers) (ssid password : string)
    (replies : nat -> connect_reply) (g : globals) :
  credentials_fit hdr ssid password ->
  exists g' tr res,
    connect_to_wifi_ap hdr ssid password replies g = Returns (g', tr, res)
    /\ (res = CY_RSLT_SUCCESS <-> joins_within MAX_WIFI_CONN_RETRIES replies)
    /\ (length (filter (fun e => is_connect_ap e = true) tr)
        <= MAX_WIFI_CONN_RETRIES)%nat
    /\ (res <> CY_RSLT_SUCCESS -> g' = g)
    /\ g' = set_tcp_server_addr (tcp_server_addr g') g.
Proof.
  intros Hfit.
  destruct (first_success_or_none replies MAX_WIFI_CONN_RETRIES)
    as [(k & Hk & Hfail & Hok)|Hnone].
  - rewrite (connect_with_fitting_credentials hdr ssid password replies g Hfit).
    rewrite (join_loop_first_success hdr _ _ replies g k MAX_WIFI_CONN_RETRIES 0
               CY_RSLT_SUCCESS Hk Hfail Hok).
    eexists _, _, _. split; [reflexivity|].
    split; [split; [intros _; exists k; auto | reflexivity]|].
    split.
    { change (Console "Connecting to Wi-Fi Network: %s" :: ?l)
        with ([Console "Connecting to Wi-Fi Network: %s"] ++ l).
      rewrite filter_app, length_app, count_failed_attempts.
      repeat (first [ rewrite filter_cons_True by reflexivity
                    | rewrite filter_cons_False by discriminate ]).
      rewrite ?filter_nil. cbn [length].
      unfold MAX_WIFI_CONN_RETRIES in *. lia. }
    split; [intros H; contradiction | reflexivity].
  - rewrite (connect_with_fitting_credentials hdr ssid password replies g Hfit).
    rewrite (join_loop_all_fail hdr _ _ replies g MAX_WIFI_CONN_RETRIES 0
               CY_RSLT_SUCCESS Hnone).
    eexists _, _, _. split; [reflexivity|].
    assert (wcm_result (replies 9%nat) <> CY_RSLT_SUCCESS) as H9
        by (apply Hnone; unfold MAX_WIFI_CONN_RETRIES; lia).
    split; [split|].
    + intros H. contradiction.
    + intros (k & Hk & Hok). exfalso. exact (Hnone k Hk Hok).
    + split.
      { change (Console "Connecting to Wi-Fi Network: %s" :: ?l)
          with ([Console "Connecting to Wi-Fi Network: %s"] ++ l).
        rewrite filter_app, length_app, count_failed_attempts.
      repeat (first [ rewrite filter_cons_True by reflexivity
                    | rewrite filter_cons_False by discriminate ]).
      rewrite ?filter_nil. cbn [length].
      unfold MAX_WIFI_CONN_RETRIES in *. lia. }
      split; [reflexivity | destruct g; reflexivity].
Qed.

Lemma join_succeeds_iff_within_ten_witness :
  credentials_fit wcm_limits WIFI_SSID WIFI_PASSWORD /\
  exists g' tr res,
    connect_to_wifi_ap wcm_limits WIFI_SSID WIFI_PASSWORD third_time_lucky at_reset
    = Returns (g', tr, res)
    /\ (res = CY_RSLT_SUCCESS <-> joins_within MAX_WIFI_CONN_RETRIES third_time_lucky).
Proof.
  split; [exact sample_credentials_fit|].
  destruct (join_succeeds_iff_within_ten wcm_limits WIFI_SSID WIFI_PASSWORD
              third_time_lucky at_reset sample_credentials_fit)
    as (g' & tr & res & E & Hiff & _).
  exists g', tr, res. split; assumption.
Defined.

(** X12: credentials that fail a length check never reach the connection
    manager: the function returns at once without an attempt and without
    touching a global.  The SSID is checked first, so a bad SSID is
    reported as [CY_RSLT_WCM_BAD_SSID_LEN] whatever the password, and
    [CY_RSLT_WCM_BAD_PASSPHRASE_LEN] means that the SSID passed.  The
    lengths are compared after their cast to [uint8_t]: a 256-character
    string counts as empty. *)
Theorem bad_credentials_are_not_tried (hdr : headers) (ssid password : string)
    (replies : nat -> connect_reply) (g : globals) :
  let ssid_bad := (uint8 (strlen ssid) = 0
                   \/ CY_WCM_MAX_SSID_LEN hdr < uint8 (strlen ssid))%nat in
  let password_bad := (uint8 (strlen password) = 0
                       \/ CY_WCM_MAX_PASSPHRASE_LEN hdr < uint8 (strlen password))%nat in
  ssid_bad \/ password_bad ->
  exists msg res,
    connect_to_wifi_ap hdr ssid password replies g = Returns (g, [Console msg], res)
    /\ (ssid_bad -> res = CY_RSLT_WCM_BAD_SSID_LEN hdr)
    /\ (~ ssid_bad -> res = CY_RSLT_WCM_BAD_PASSPHRASE_LEN hdr).
Proof.
  cbv zeta. intros Hbad. unfold connect_to_wifi_ap.
  case_decide as Hs.
  - eexists _, _. split; [reflexivity|]. split; [reflexivity | contradiction].
  - destruct Hbad as [Hbad|Hbad]; [contradiction|].
    rewrite decide_True by exact Hbad.
    eexists _, _. split; [reflexivity|]. split; [contradiction | reflexivity].
Qed.

Lemma bad_credentials_are_not_tried_witness :
  uint8 (strlen (string_of_list_ascii (replicate 256 "a"%char))) = 0%nat /\
  exists msg res,
    connect_to_wifi_ap wcm_limits (string_of_list_ascii (replicate 256 "a"%char))
                       WIFI_PASSWORD third_time_lucky at_reset
    = Returns (at_reset, [Console msg], res)
    /\ res = CY_RSLT_WCM_BAD_SSID_LEN wcm_limits.
Proof.
  assert (uint8 (strlen (string_of_list_ascii (replicate 256 "a"%char))) = 0%nat)
    as H0 by (vm_compute; reflexivity).
  split; [exact H0|].
  destruct (bad_credentials_are_not_tried wcm_limits
              (string_of_list_ascii (replicate 256 "a"%char)) WIFI_PASSWORD
              third_time_lucky at_reset) as (msg & res & E & Hs & _).
  - left. left. exact H0.
  - exists msg, res. split; [exact E|]. apply Hs. left. exact H0.
Defined.

(** X13: because the length checks look at the length modulo 256, an SSID
    whose length is 256 more than an accepted one passes them although it
    does not fit the SSID array; copying it then writes past the end of the
    array. *)
Theorem overlong_ssid_overflows_credentials (hdr : headers)
    (ssid password : string) (replies : nat -> connect_reply) (g : globals) :
  (uint8 (strlen ssid) <> 0)%nat ->
  (uint8 (strlen ssid) <= CY_WCM_MAX_SSID_LEN hdr)%nat ->
  (uint8 (strlen password) <> 0)%nat ->
  (uint8 (strlen password) <= CY_WCM_MAX_PASSPHRASE_LEN hdr)%nat ->
  (sizeof_SSID hdr < length (literal ssid))%nat ->
  connect_to_wifi_ap hdr ssid password replies g
  = Undefined (StoreOutOfBounds (sizeof_SSID hdr) (sizeof_SSID hdr)).
Proof.
  intros Hs0 Hs Hp0 Hp Hbig. unfold connect_to_wifi_ap.
  rewrite decide_False by lia. rewrite decide_False by lia.
  unfold memcpy. rewrite length_replicate.
  rewrite decide_False by lia. reflexivity.
Qed.

Lemma overlong_ssid_overflows_credentials_witness :
  strlen long_ssid = 257%nat /\
  uint8 (strlen long_ssid) = 1%nat /\
  connect_to_wifi_ap wcm_limits long_ssid WIFI_PASSWORD third_time_lucky at_reset
  = Undefined (StoreOutOfBounds 33 33).
Proof.
  split; [vm_compute; reflexivity|]. split; [vm_compute; reflexivity|].
  apply (overlong_ssid_overflows_credentials wcm_limits long_ssid WIFI_PASSWORD
           third_time_lucky at_reset); vm_compute; lia.
Defined.

(** *** [create_tcp_server_socket] *)

(** X14: the function returns success exactly when the creation, the four
    option calls and the bind all succeed; it then has made these six calls
    in this order on the created handle (receive timeout 500 ms, the three
    callbacks each under its own option, bind to [tcp_server_addr]) and
    printed nothing. *)
Theorem create_succeeds_iff_all_calls_succeed (r : create_replies) (g : globals) :
  ((create_tcp_server_socket r g).2 = CY_RSLT_SUCCESS <-> create_all_succeed r)
  /\ (create_all_succeed r ->
      create_tcp_server_socket r g
      = (set_server_handle (cr_server_handle r) g,
         listening_socket_setup (cr_server_handle r) (tcp_server_addr g),
         CY_RSLT_SUCCESS)).
Proof.
  unfold create_all_succeed, create_tcp_server_socket. split.
  - repeat case_decide; cbn [snd]; split; intros Hx;
      try contradiction; try tauto; try (repeat split; assumption).
  - intros (H1 & H2 & H3 & H4 & H5 & H6).
    rewrite H1, H2, H3, H4, H5, H6. reflexivity.
Qed.

Lemma create_succeeds_iff_all_calls_succeed_witness :
  create_all_succeed create_ok /\
  create_tcp_server_socket create_ok at_reset
  = (set_server_handle 1 at_reset,
     listening_socket_setup 1 (tcp_server_addr at_reset), CY_RSLT_SUCCESS).
Proof.
  assert (create_all_succeed create_ok) as Hok by (repeat split).
  split; [exact Hok|].
  apply (create_succeeds_iff_all_calls_succeed create_ok at_reset). exact Hok.
Defined.

(** What the function leaves behind, whichever call fails. *)
Lemma create_failure_summary (r : create_replies) (g : globals) :
  let out := create_tcp_server_socket r g in
  calls out.1.2
    `prefix_of` listening_socket_setup (cr_server_handle r) (tcp_server_addr g)
  /\ Forall (fun e => match e with ServerSocketDelete _ => False | _ => True end)
            out.1.2
  /\ out.1.1 = set_server_handle (cr_server_handle r) g
  /\ out.2 ∈ [cr_create r; cr_rcvtimeo r; cr_connect_cb r; cr_receive_cb r;
              cr_disconnect_cb r; cr_bind r]
  /\ (out.2 <> CY_RSLT_SUCCESS -> exists tr msg, out.1.2 = tr ++ [Console msg]).
Proof.
  cbv zeta. unfold create_tcp_server_socket, listening_socket_setup.
  repeat case_decide; cbn [fst snd app server_handle set_server_handle tcp_server_addr];
    (split; [|split; [repeat constructor|split; [reflexivity|split; [elem_of_list|]]]]).
  all: try (intros Hx; contradiction).
  all: try match goal with
           | |- _ -> exists tr msg, ?l = _ =>
               intros _; exists (removelast l); eexists; reflexivity
           end.
  all: unfold calls;
    repeat (first [ rewrite filter_cons_True by reflexivity
                  | rewrite filter_cons_False by discriminate ]);
    rewrite filter_nil; eexists; reflexivity.
Qed.

(** The function stops at the first call that fails: it has made the calls
    up to and including that one, prints that call's message and returns
    its reply. *)
Lemma create_first_failure (r : create_replies) (g : globals)
    (n : nat) (c : cy_rslt_t) (call : boot_event) (msg : string) :
  first_failure (create_results r) n c ->
  create_steps (cr_server_handle r) (tcp_server_addr g) !! n = Some (call, msg) ->
  create_tcp_server_socket r g
  = (set_server_handle (cr_server_handle r) g,
     (take (S n) (create_steps (cr_server_handle r) (tcp_server_addr g))).*1
     ++ [Console msg],
     c).
Proof.
  intros (Hn & Hc & Hprev) Hstep. unfold create_tcp_server_socket.
  assert (forall j x, (j < n)%nat -> create_results r !! j = Some x ->
                      x = CY_RSLT_SUCCESS) as Hok.
  { intros j x Hj Hx. rewrite (Hprev j Hj) in Hx. congruence. }
  destruct n as [|[|[|[|[|[|n]]]]]]; cbn in Hn, Hstep; try discriminate;
    injection Hn as Hn; injection Hstep as _ Hmsg; subst msg;
    rewrite ?(Hok 0%nat (cr_create r)) by (first [lia | reflexivity]);
    rewrite ?(Hok 1%nat (cr_rcvtimeo r)) by (first [lia | reflexivity]);
    rewrite ?(Hok 2%nat (cr_connect_cb r)) by (first [lia | reflexivity]);
    rewrite ?(Hok 3%nat (cr_receive_cb r)) by (first [lia | reflexivity]);
    rewrite ?(Hok 4%nat (cr_disconnect_cb r)) by (first [lia | reflexivity]);
    rewrite Hn;
    rewrite ?decide_False by (intros Hx; apply Hx; reflexivity);
    rewrite decide_True by exact Hc; reflexivity.
Qed.

(** Unless all six calls succeed, one of them is the first to fail. *)
Lemma create_has_first_failure (r : create_replies) (g : globals) :
  (create_tcp_server_socket r g).2 <> CY_RSLT_SUCCESS ->
  exists n c, first_failure (create_results r) n c.
Proof.
  intros Hne. unfold first_failure, create_results.
  destruct (decide (cr_create r = CY_RSLT_SUCCESS)) as [H0|H0];
    [|exists 0%nat, (cr_create r); repeat split; auto; intros j Hj; lia].
  destruct (decide (cr_rcvtimeo r = CY_RSLT_SUCCESS)) as [H1|H1];
    [|exists 1%nat, (cr_rcvtimeo r); repeat split; auto; intros j Hj;
      destruct j as [|j]; [cbn; congruence | lia]].
  destruct (decide (cr_connect_cb r = CY_RSLT_SUCCESS)) as [H2|H2];
    [|exists 2%nat, (cr_connect_cb r); repeat split; auto; intros j Hj;
      destruct j as [|[|j]]; [cbn; congruence | cbn; congruence | lia]].
  destruct (decide (cr_receive_cb r = CY_RSLT_SUCCESS)) as [H3|H3];
    [|exists 3%nat, (cr_receive_cb r); repeat split; auto; intros j Hj;
      destruct j as [|[|[|j]]];
      [cbn; congruence | cbn; congruence | cbn; congruence | lia]].
  destruct (decide (cr_disconnect_cb r = CY_RSLT_SUCCESS)) as [H4|H4];
    [|exists 4%nat, (cr_disconnect_cb r); repeat split; auto; intros j Hj;
      destruct j as [|[|[|[|j]]]];
      [cbn; congruence | cbn; congruence | cbn; congruence
       | cbn; congruence | lia]].
  destruct (decide (cr_bind r = CY_RSLT_SUCCESS)) as [H5|H5].
  { exfalso. apply Hne. unfold create_tcp_server_socket.
    rewrite H0, H1, H2, H3, H4, H5. reflexivity. }
  exists 5%nat, (cr_bind r); repeat split; auto; intros j Hj.
  destruct j as [|[|[|[|[|j]]]]];
    [cbn; congruence | cbn; congruence | cbn; congruence
     | cbn; congruence | cbn; congruence | lia].
Qed.

(** X15: whatever fails, the function stops at the first failing call and
    returns its error: it has made the calls up to and including the first
    one whose reply is not success and no later one, its last action is
    printing that call's message, and it returns that call's reply.  So
    the calls made are an initial part of the six of the successful run
    (the socket is bound only after the three callbacks are registered),
    the created socket is never deleted, and [server_handle] holds what
    [cy_socket_create] stored. *)
Theorem create_stops_at_first_failure (r : create_replies) (g : globals) :
  let out := create_tcp_server_socket r g in
  (forall n c call msg,
     first_failure (create_results r) n c ->
     create_steps (cr_server_handle r) (tcp_server_addr g) !! n = Some (call, msg) ->
     out = (set_server_handle (cr_server_handle r) g,
            (take (S n) (create_steps (cr_server_handle r) (tcp_server_addr g))).*1
            ++ [Console msg],
            c))
  /\ (out.2 <> CY_RSLT_SUCCESS ->
      exists n c, first_failure (create_results r) n c /\ out.2 = c)
  /\ calls out.1.2
       `prefix_of` listening_socket_setup (cr_server_handle r) (tcp_server_addr g)
  /\ Forall (fun e => match e with ServerSocketDelete _ => False | _ => True end)
            out.1.2
  /\ out.1.1 = set_server_handle (cr_server_handle r) g
  /\ out.2 ∈ [cr_create r; cr_rcvtimeo r; cr_connect_cb r; cr_receive_cb r;
              cr_disconnect_cb r; cr_bind r]
  /\ (out.2 <> CY_RSLT_SUCCESS -> exists tr msg, out.1.2 = tr ++ [Console msg]).
Proof.
  cbv zeta. split; [|split].
  - intros n c call msg Hff Hstep.
    exact (create_first_failure r g n c call msg Hff Hstep).
  - intros Hne.
    destruct (create_has_first_failure r g Hne) as (n & c & Hff).
    exists n, c. split; [exact Hff|].
    pose proof Hff as (Hn & _).
    destruct (create_steps (cr_server_handle r) (tcp_server_addr g) !! n)
      as [[call msg]|] eqn:E.
    + rewrite (create_first_failure r g n c call msg Hff E). reflexivity.
    + apply lookup_lt_Some in Hn. apply lookup_ge_None in E. cbn in Hn, E. lia.
  - exact (create_failure_summary r g).
Qed.

Lemma create_stops_at_first_failure_witness :
  (create_tcp_server_socket create_receive_cb_refused at_reset).2
    <> CY_RSLT_SUCCESS /\
  exists n c,
    first_failure (create_results create_receive_cb_refused) n c
    /\ (create_tcp_server_socket create_receive_cb_refused at_reset).2 = c.
Proof.
  assert ((create_tcp_server_socket create_receive_cb_refused at_reset).2
            <> CY_RSLT_SUCCESS) as Hne by discriminate.
  split; [exact Hne|].
  destruct (create_stops_at_first_failure create_receive_cb_refused at_reset)
    as (_ & Hfirst & _).
  exact (Hfirst Hne).
Defined.

(** *** [tcp_server_task] up to its loop *)

(** A result that is not different from a code is that code. *)
Ltac stable_results :=
  repeat match goal with
         | H : ~ (_ <> _) |- _ => apply dec_stable in H
         end.

Lemma connect_outcome (hdr : headers) (ssid password : string)
    (replies : nat -> connect_reply) (g : globals) :
  credentials_fit hdr ssid password ->
  exists a tr res,
    connect_to_wifi_ap hdr ssid password replies g
    = Returns (set_tcp_server_addr a g, tr, res)
    /\ (res = CY_RSLT_SUCCESS <-> joins_within MAX_WIFI_CONN_RETRIES replies)
    /\ (res = CY_RSLT_SUCCESS -> port a = TCP_SERVER_PORT).
Proof.
  intros Hfit.
  rewrite (connect_with_fitting_credentials hdr ssid password replies g Hfit).
  destruct (first_success_or_none replies MAX_WIFI_CONN_RETRIES)
    as [(k & Hk & Hfail & Hok)|Hnone].
  - rewrite (join_loop_first_success hdr _ _ replies g k MAX_WIFI_CONN_RETRIES 0
               CY_RSLT_SUCCESS Hk Hfail Hok).
    eexists _, _, _. split; [reflexivity|].
    split; [split; [intros _; exists k; auto | reflexivity] | reflexivity].
  - rewrite (join_loop_all_fail hdr _ _ replies g MAX_WIFI_CONN_RETRIES 0
               CY_RSLT_SUCCESS Hnone).
    assert (wcm_result (replies 9%nat) <> CY_RSLT_SUCCESS) as H9
        by (apply Hnone; unfold MAX_WIFI_CONN_RETRIES; lia).
    exists (tcp_server_addr g). eexists _, _.
    split; [destruct g; reflexivity|].
    split; [split|].
    + intros Hx. contradiction.
    + intros (k & Hk & Hok). exfalso. exact (Hnone k Hk Hok).
    + intros Hx. contradiction.
Qed.

Lemma create_outcome (r : create_replies) (g : globals) :
  exists tr res,
    create_tcp_server_socket r g
    = (set_server_handle (cr_server_handle r) g, tr, res)
    /\ (res = CY_RSLT_SUCCESS <-> create_all_succeed r).
Proof.
  unfold create_all_succeed, create_tcp_server_socket.
  repeat case_decide; eexists _, _; (split; [reflexivity|]);
    split; intros Hx; try contradiction; try tauto; try (repeat split; assumption).
Qed.

(** X16: in a build where a failed [CY_ASSERT] stops the task, and with
    fitting credentials, the task reaches its loop exactly when the Wi-Fi
    manager initialises, one of the first ten join attempts succeeds, the
    sockets library initialises, the listening socket is created, set up
    and bound, and the listen call succeeds.  It is then listening with a
    backlog of 3 on the created handle, and [tcp_server_addr] has port
    50007. *)
Theorem startup_reaches_loop_iff_all_steps_succeed (hdr : headers)
    (ssid password : string) (r : startup_replies) (g : globals) :
  credentials_fit hdr ssid password ->
  exists g' tr st,
    tcp_server_task_startup hdr true ssid password r g = Returns (g', tr, st)
    /\ (st = EntersLoop <->
        st_wcm_init r = CY_RSLT_SUCCESS
        /\ joins_within MAX_WIFI_CONN_RETRIES (st_connect r)
        /\ st_socket_init r = CY_RSLT_SUCCESS
        /\ create_all_succeed (st_create r)
        /\ st_listen r = CY_RSLT_SUCCESS)
    /\ (st = EntersLoop ->
        SocketListen (cr_server_handle (st_create r))
                     TCP_SERVER_MAX_PENDING_CONNECTIONS ∈ tr
        /\ server_handle g' = cr_server_handle (st_create r)
        /\ port (tcp_server_addr g') = TCP_SERVER_PORT).
Proof.
  intros Hfit. unfold tcp_server_task_startup.
  destruct (connect_outcome hdr ssid password (st_connect r) g Hfit)
    as (a & tr1 & res1 & E1 & Hjoin & Hport).
  rewrite E1. cbn [and_then].
  destruct (create_outcome (st_create r) (set_tcp_server_addr a g))
    as (tr2 & res2 & E2 & Hcreate).
  rewrite E2.
  rewrite !andb_true_r.
  repeat case_bool_decide; cbn [negb];
    stable_results;
    try (eexists _, _, _; split; [reflexivity|];
         split; [split; [discriminate | intros (? & ? & ? & ? & ?); tauto]
                | discriminate]).
  case_decide as Hl; stable_results.
  - eexists _, _, _; split; [reflexivity|].
    split; [split; [discriminate | intros (? & ? & ? & ? & ?); tauto]
           | discriminate].
  - eexists _, _, _; split; [reflexivity|]. split; [|intros _; split].
    + split; [intros _|reflexivity]. tauto.
    + rewrite !elem_of_app. left. right. elem_of_list.
    + split; [reflexivity|]. cbn. tauto.
Qed.

Lemma startup_reaches_loop_iff_all_steps_succeed_witness :
  credentials_fit wcm_limits WIFI_SSID WIFI_PASSWORD /\
  exists g' tr,
    tcp_server_task_startup wcm_limits true WIFI_SSID WIFI_PASSWORD
                            startup_ok at_reset
    = Returns (g', tr, EntersLoop)
    /\ server_handle g' = 1 /\ port (tcp_server_addr g') = 50007.
Proof.
  split; [exact sample_credentials_fit|].
  destruct (startup_reaches_loop_iff_all_steps_succeed wcm_limits WIFI_SSID
              WIFI_PASSWORD startup_ok at_reset sample_credentials_fit)
    as (g' & tr & st & E & Hiff & Hloop).
  assert (st = EntersLoop) as ->.
  { apply Hiff. split; [reflexivity|]. split.
    - exists 2%nat. split; [unfold MAX_WIFI_CONN_RETRIES; lia | reflexivity].
    - repeat split. }
  exists g', tr. split; [exact E|].
  destruct (Hloop eq_refl) as (_ & Hh & Hp). split; assumption.
Defined.

(** X17: when everything up to the listen call has succeeded and
    [cy_socket_listen] fails, the task deletes the listening socket and
    reports the failure; it then stops if a failed [CY_ASSERT] halts and
    enters its loop, without a listening socket, if assertions are compiled
    out. *)
Theorem listen_failure_deletes_server_socket (hdr : headers)
    (assert_halts : bool) (ssid password : string) (r : startup_replies)
    (g : globals) :
  credentials_fit hdr ssid password ->
  st_wcm_init r = CY_RSLT_SUCCESS ->
  joins_within MAX_WIFI_CONN_RETRIES (st_connect r) ->
  st_socket_init r = CY_RSLT_SUCCESS ->
  create_all_succeed (st_create r) ->
  st_listen r <> CY_RSLT_SUCCESS ->
  exists g' tr,
    tcp_server_task_startup hdr assert_halts ssid password r g
    = Returns (g',
               tr ++ [ SocketListen (cr_server_handle (st_create r))
                                    TCP_SERVER_MAX_PENDING_CONNECTIONS;
                       ServerSocketDelete (cr_server_handle (st_create r));
                       Console "cy_socket_listen returned error. Error code: 0x%08x" ],
               if assert_halts then Halted else EntersLoop).
Proof.
  intros Hfit Hinit Hj Hsock Hcr Hlisten. unfold tcp_server_task_startup.
  destruct (connect_outcome hdr ssid password (st_connect r) g Hfit)
    as (a & tr1 & res1 & E1 & Hjoin & _).
  rewrite E1. cbn [and_then].
  destruct (create_outcome (st_create r) (set_tcp_server_addr a g))
    as (tr2 & res2 & E2 & Hcreate).
  rewrite E2.
  apply Hjoin in Hj. apply Hcreate in Hcr. subst res1 res2.
  rewrite Hinit, Hsock.
  rewrite !bool_decide_eq_false_2 by (intros Hx; apply Hx; reflexivity).
  cbn [andb]. rewrite decide_True by exact Hlisten. cbn [server_handle set_server_handle].
  eexists _, _. rewrite <- app_assoc. reflexivity.
Qed.

Lemma listen_failure_deletes_server_socket_witness :
  credentials_fit wcm_limits WIFI_SSID WIFI_PASSWORD /\
  st_listen startup_listen_fails <> CY_RSLT_SUCCESS /\
  exists g' tr,
    tcp_server_task_startup wcm_limits false WIFI_SSID WIFI_PASSWORD
                            startup_listen_fails at_reset
    = Returns (g',
               tr ++ [ SocketListen 1 3; ServerSocketDelete 1;
                       Console "cy_socket_listen returned error. Error code: 0x%08x" ],
               EntersLoop).
Proof.
  split; [exact sample_credentials_fit|]. split; [discriminate|].
  apply (listen_failure_deletes_server_socket wcm_limits false WIFI_SSID
           WIFI_PASSWORD startup_listen_fails at_reset sample_credentials_fit).
  - reflexivity.
  - exists 2%nat. split; [unfold MAX_WIFI_CONN_RETRIES; lia | reflexivity].
  - reflexivity.
  - repeat split.
  - discriminate.
Defined.

(** X18: in a build where [CY_ASSERT] is compiled out, no failure stops the
    start-up: with fitting credentials the task always goes on to call
    [cy_socket_listen] and enters its loop, whatever the library calls
    returned. *)
Theorem startup_without_asserts_always_reaches_loop (hdr : headers)
    (ssid password : string) (r : startup_replies) (g : globals) :
  credentials_fit hdr ssid password ->
  exists g' tr,
    tcp_server_task_startup hdr false ssid password r g
    = Returns (g', tr, EntersLoop)
    /\ SocketListen (server_handle g') TCP_SERVER_MAX_PENDING_CONNECTIONS ∈ tr.
Proof.
  intros Hfit. unfold tcp_server_task_startup.
  destruct (connect_outcome hdr ssid password (st_connect r) g Hfit)
    as (a & tr1 & res1 & E1 & _).
  rewrite E1. cbn [and_then].
  destruct (create_outcome (st_create r) (set_tcp_server_addr a g))
    as (tr2 & res2 & E2 & _).
  rewrite E2. rewrite !andb_false_r.
  case_decide; eexists _, _; (split; [reflexivity|]);
    cbn [server_handle set_server_handle]; rewrite !elem_of_app;
    left; right; elem_of_list.
Qed.

Lemma startup_without_asserts_always_reaches_loop_witness :
  credentials_fit wcm_limits WIFI_SSID WIFI_PASSWORD /\
  exists g' tr,
    tcp_server_task_startup wcm_limits false WIFI_SSID WIFI_PASSWORD
                            startup_no_network at_reset
    = Returns (g', tr, EntersLoop)
    /\ SocketListen (server_handle g') TCP_SERVER_MAX_PENDING_CONNECTIONS ∈ tr.
Proof.
  split; [exact sample_credentials_fit|].
  apply (startup_without_asserts_always_reaches_loop wcm_limits WIFI_SSID
           WIFI_PASSWORD startup_no_network at_reset sample_credentials_fit).
Defined.

(** ** The server over a sequence of events *)

Lemma run_app (g : globals) (l1 l2 : list stimulus) :
  run g (l1 ++ l2)
  = match run g l1 with
    | Returns g1 => run g1 l2
    | Undefined f => Undefined f
    end.
Proof.
  revert g. induction l1 as [|s l1 IH]; intros g; [reflexivity|].
  simpl. destruct (react g s); [apply IH | reflexivity].
Qed.

(** What one event can do to the globals. *)
Lemma react_effect (g g' : globals) (s : stimulus) :
  react g s = Returns g' ->
  tcp_server_addr g' = tcp_server_addr g
  /\ server_handle g' = server_handle g
  /\ (client_connected g' =
      if is_disconnect s then false
      else client_connected g || connect_succeeds s)
  /\ (is_data s = false ->
      led_state g' = if is_disconnect s then false else led_state g).
Proof.
  destruct s as [cmd pin sr | listener acc ka | h r | h res]; simpl.
  - intros [= <-]. rewrite orb_false_r. repeat split.
  - intros [= <-].
    destruct (connection_handler_result g listener acc ka) as [Hiff Hflag].
    cbv zeta in Hiff, Hflag.
    pose proof (connection_handler_globals g listener acc ka) as Hg.
    cbv zeta in Hg. destruct Hg as (_ & _ & _ & _ & Hled).
    split; [|split; [|split; [|intros _; exact Hled]]].
    + unfold tcp_connection_handler. repeat case_decide; reflexivity.
    + unfold tcp_connection_handler. repeat case_decide; reflexivity.
    + rewrite Hflag. f_equal. apply bool_decide_ext. exact Hiff.
  - destruct (tcp_receive_msg_handler g h r) as [[[g1 tr] res]|f] eqn:E;
      [|discriminate].
    intros [= <-].
    destruct (receive_frame g g1 h r tr res E) as (Hg1 & _ & _).
    rewrite Hg1. cbn. rewrite orb_false_r. repeat split. discriminate.
  - intros [= <-]. repeat split.
Qed.

(** X19: once the task is in its loop nothing writes the listening side:
    over any sequence of button presses, connect requests, received data
    and disconnections, [tcp_server_addr] and [server_handle] keep the
    values the start-up gave them. *)
Theorem listening_socket_is_never_rewritten (l : list stimulus) :
  forall g g',
  run g l = Returns g' ->
  tcp_server_addr g' = tcp_server_addr g /\ server_handle g' = server_handle g.
Proof.
  induction l as [|s l IH]; intros g g'; simpl.
  - intros [= <-]. split; reflexivity.
  - destruct (react g s) as [g1|f] eqn:E; [|discriminate].
    intros Hrun. destruct (react_effect g g1 s E) as (Ha & Hh & _).
    destruct (IH g1 g' Hrun) as [Ha' Hh']. split; congruence.
Qed.

Lemma listening_socket_is_never_rewritten_witness :
  run connected_off
      [ ButtonPress LED_ON_CMD false CY_RSLT_SUCCESS;
        DataReceived 2 (RecvReply CY_RSLT_SUCCESS ack_on);
        PeerDisconnected 2 CY_RSLT_SUCCESS;
        ConnectRequest 1 second_peer keepalive_ok ]
  = Returns (set_client_connected true
               (set_peer (acc_peer_addr second_peer) 8 3 connected_off))
  /\ server_handle
       (set_client_connected true
          (set_peer (acc_peer_addr second_peer) 8 3 connected_off))
     = server_handle connected_off.
Proof.
  assert (run connected_off
              [ ButtonPress LED_ON_CMD false CY_RSLT_SUCCESS;
                DataReceived 2 (RecvReply CY_RSLT_SUCCESS ack_on);
                PeerDisconnected 2 CY_RSLT_SUCCESS;
                ConnectRequest 1 second_peer keepalive_ok ]
          = Returns (set_client_connected true
                       (set_peer (acc_peer_addr second_peer) 8 3 connected_off)))
    as E by (vm_compute; reflexivity).
  split; [exact E|].
  apply (listening_socket_is_never_rewritten _ _ _ E).
Defined.

Lemma run_stays_disconnected (l : list stimulus) :
  forall g g',
  run g l = Returns g' ->
  Forall (fun s => connect_succeeds s = false) l ->
  client_connected g = false ->
  client_connected g' = false.
Proof.
  induction l as [|s l IH]; intros g g'; simpl.
  - intros [= <-] _ H. exact H.
  - destruct (react g s) as [g1|f] eqn:E; [|discriminate].
    intros Hrun Hall Hc. apply Forall_cons in Hall as [Hs Hall].
    destruct (react_effect g g1 s E) as (_ & _ & Hflag & _).
    apply (IH g1 g' Hrun Hall). rewrite Hflag, Hc, Hs.
    destruct (is_disconnect s); reflexivity.
Qed.

Lemma run_keeps_led_off (l : list stimulus) :
  forall g g',
  run g l = Returns g' ->
  Forall (fun s => is_data s = false) l ->
  led_state g = false ->
  led_state g' = false.
Proof.
  induction l as [|s l IH]; intros g g'; simpl.
  - intros [= <-] _ H. exact H.
  - destruct (react g s) as [g1|f] eqn:E; [|discriminate].
    intros Hrun Hall Hc. apply Forall_cons in Hall as [Hs Hall].
    destruct (react_effect g g1 s E) as (_ & _ & _ & Hled).
    apply (IH g1 g' Hrun Hall). rewrite (Hled Hs), Hc.
    destruct (is_disconnect s); reflexivity.
Qed.

Lemma run_stays_connected (l : list stimulus) :
  forall g g',
  run g l = Returns g' ->
  Forall (fun s => is_disconnect s = false) l ->
  client_connected g = true ->
  client_connected g' = true.
Proof.
  induction l as [|s l IH]; intros g g'; simpl.
  - intros [= <-] _ H. exact H.
  - destruct (react g s) as [g1|f] eqn:E; [|discriminate].
    intros Hrun Hall Hc. apply Forall_cons in Hall as [Hs Hall].
    destruct (react_effect g g1 s E) as (_ & _ & Hflag & _).
    apply (IH g1 g' Hrun Hall). rewrite Hflag, Hc, Hs. reflexivity.
Qed.

(** X20: after a disconnect event [client_connected] stays clear until a
    connect request succeeds in full: neither button presses, nor received
    data, nor connect requests whose accept or keep-alive set-up fails set
    it.  If moreover no data has been received since, [led_state] is still
    OFF. *)
Theorem disconnected_until_next_successful_connect
    (pre post : list stimulus) (h : cy_socket_t) (res : cy_rslt_t)
    (g g' : globals) :
  run g (pre ++ PeerDisconnected h res :: post) = Returns g' ->
  Forall (fun s => connect_succeeds s = false) post ->
  client_connected g' = false
  /\ (Forall (fun s => is_data s = false) post -> led_state g' = false).
Proof.
  rewrite run_app. destruct (run g pre) as [g1|f]; [|discriminate].
  simpl. intros Hrun Hall. split.
  - apply (run_stays_disconnected post _ g' Hrun Hall). reflexivity.
  - intros Hdata. apply (run_keeps_led_off post _ g' Hrun Hdata). reflexivity.
Qed.

Lemma disconnected_until_next_successful_connect_witness :
  run connected_on
      ([ButtonPress LED_OFF_CMD false CY_RSLT_SUCCESS]
       ++ PeerDisconnected 2 CY_RSLT_SUCCESS
       :: [ ConnectRequest 1 first_peer keepalive_interval_refused;
            ButtonPress LED_ON_CMD false CY_RSLT_SUCCESS ])
  = Returns (set_peer (acc_peer_addr first_peer) 8 2 listening)
  /\ client_connected (set_peer (acc_peer_addr first_peer) 8 2 listening) = false.
Proof.
  assert (run connected_on
              ([ButtonPress LED_OFF_CMD false CY_RSLT_SUCCESS]
               ++ PeerDisconnected 2 CY_RSLT_SUCCESS
               :: [ ConnectRequest 1 first_peer keepalive_interval_refused;
                    ButtonPress LED_ON_CMD false CY_RSLT_SUCCESS ])
          = Returns (set_peer (acc_peer_addr first_peer) 8 2 listening))
    as E by (vm_compute; reflexivity).
  split; [exact E|].
  destruct (disconnected_until_next_successful_connect _ _ _ _ _ _ E)
    as [Hflag _]; [|exact Hflag].
  repeat (apply Forall_cons; split; [vm_compute; reflexivity|]).
  constructor.
Defined.

(** X21: after a connect request that succeeds in full, [client_connected]
    stays set until a disconnect event: no button press clears it, whatever
    its send returns (the peer-closed code included), and no received data
    or receive error does. *)
Theorem connected_until_disconnect_event
    (pre post : list stimulus) (s : stimulus) (g g' : globals) :
  run g (pre ++ s :: post) = Returns g' ->
  connect_succeeds s = true ->
  Forall (fun s => is_disconnect s = false) post ->
  client_connected g' = true.
Proof.
  rewrite run_app. destruct (run g pre) as [g1|f]; [|discriminate].
  simpl. destruct (react g1 s) as [g2|f] eqn:E; [|discriminate].
  intros Hrun Hs Hall.
  apply (run_stays_connected post g2 g' Hrun Hall).
  destruct (react_effect g1 g2 s E) as (_ & _ & Hflag & _).
  rewrite Hflag, Hs.
  destruct s; try discriminate. cbn. apply orb_true_r.
Qed.

Lemma connected_until_disconnect_event_witness :
  run listening
      ([] ++ ConnectRequest 1 first_peer keepalive_ok
       :: [ ButtonPress LED_ON_CMD false CY_RSLT_MODULE_SECURE_SOCKETS_CLOSED;
            DataReceived 2 (RecvReply CY_RSLT_MODULE_SECURE_SOCKETS_CLOSED []) ])
  = Returns (set_client_connected true
               (set_peer (acc_peer_addr first_peer) 8 2 listening))
  /\ client_connected
       (set_client_connected true
          (set_peer (acc_peer_addr first_peer) 8 2 listening)) = true.
Proof.
  assert (run listening
              ([] ++ ConnectRequest 1 first_peer keepalive_ok
               :: [ ButtonPress LED_ON_CMD false CY_RSLT_MODULE_SECURE_SOCKETS_CLOSED;
                    DataReceived 2 (RecvReply CY_RSLT_MODULE_SECURE_SOCKETS_CLOSED []) ])
          = Returns (set_client_connected true
                       (set_peer (acc_peer_addr first_peer) 8 2 listening)))
    as E by (vm_compute; reflexivity).
  split; [exact E|].
  apply (connected_until_disconnect_event _ _ _ _ _ E); [reflexivity|].
  repeat (apply Forall_cons; split; [reflexivity|]).
  constructor.
Defined.
